(** * thaink2-streamlit: the backtest/forecast reconciliation pipeline

    A shallow embedding of [utils.py] and of the "Generate Forecast" handler
    of [app.py], with the properties stated about them.

    - A pandas DataFrame is the list of its rows, in row order.
    - A Python [dict] is the list of its items in insertion order
      (module [PyDict]); iteration order and overwriting follow Python.
    - A [float64] is an IEEE 754 binary64 number ([spec_float] with
      [prec = 53], [emax = 1024]).
    - The handler runs in a small monad that threads the log of what the
      session did to the outside world (remote calls, messages, charts) and
      stops at the first raised exception. *)

From Stdlib Require Import ZArith Lia Ascii.
From Stdlib Require Import Floats.SpecFloat.
From stdpp Require Import base list strings pretty.

Set Default Proof Using "Type".

(** ** Python dictionaries *)

Module PyDict.
Section dict.
Context {K V : Type} `{EqDecision K}.

(** [d[k] = v]: overwrite in place when the key is there, append
    otherwise. *)
Fixpoint set (k : K) (v : V) (d : list (K * V)) : list (K * V) :=
  match d with
  | [] => [(k, v)]
  | (k', v') :: d' =>
    if decide (k = k') then (k, v) :: d' else (k', v') :: set k v d'
  end.

(** [d.get(k)] *)
Fixpoint get (k : K) (d : list (K * V)) : option V :=
  match d with
  | [] => None
  | (k', v') :: d' => if decide (k = k') then Some v' else get k d'
  end.

Definition keys (d : list (K * V)) : list K := d.*1.
Definition values (d : list (K * V)) : list V := d.*2.

(** [{key(x): val(x) for x in xs}] *)
Definition comprehension {A} (key : A → K) (val : A → V) (xs : list A)
  : list (K * V) :=
  foldl (λ d x, set (key x) (val x) d) [] xs.
End dict.
End PyDict.

(** ** Data model *)

(** A pandas [Timestamp]: nanoseconds since the epoch. *)
Definition timestamp := Z.

(** [float64] and its arithmetic (IEEE 754 binary64, round to nearest
    even). *)
Definition float64 := spec_float.
Definition f64_add : float64 → float64 → float64 := SFadd 53 1024.
Definition f64_sub : float64 → float64 → float64 := SFsub 53 1024.
Definition f64_mul : float64 → float64 → float64 := SFmul 53 1024.
(** Python's [==] and [<] on floats. *)
Definition f64_eqb : float64 → float64 → bool := SFeqb.
Definition f64_ltb : float64 → float64 → bool := SFltb.

(** A number, as opposed to NaN and the infinities. *)
Definition f64_is_finite (x : float64) : bool :=
  match x with
  | S754_zero _ | S754_finite _ _ _ => true
  | S754_infinity _ | S754_nan => false
  end.

(** A row of the [sales_economics] table. *)
Record Observation := {
  variable : string;
  date : timestamp;
  value : float64;
  value01 : float64;
}.

(** A record of the forecasting service's JSON answer, with the fields
    [.index], [.value] and [.model_id] that the pipeline reads. *)
Record RawForecast := {
  raw_index : string;
  raw_value : float64;
  raw_model_id : Z;
}.

(** A row of a forecast DataFrame: the [date] and [.model_id] columns, and
    the float columns by name, in column order. *)
Record ForecastRow := {
  fdate : timestamp;
  fmodel_id : Z;
  fcols : list (string * float64);
}.

(** The arguments of [api.th2forecast_api]. *)
Record ApiRequest := {
  req_actuals : list Observation;
  req_fcast_horizon : nat;
  req_group_target : option string;
  req_target_var : string;
  req_date_var : string;
  req_models_list : list string;
}.

Variant TraceKind := Scatter | Bar.

(** A plotly trace and figure, without the styling. *)
Record Trace := {
  tr_kind : TraceKind;
  tr_name : string;
  tr_x : list timestamp;
  tr_y : list float64;
}.

Record Figure := {
  fig_traces : list Trace;
  fig_title : string;
  fig_xaxis_title : string;
  fig_yaxis_title : string;
  fig_xaxis_range : timestamp * timestamp;
}.

(** ** Effects *)

(** What the session does to the outside world. *)
Variant event :=
  | RemoteCall (req : ApiRequest)      (* api.th2forecast_api(...) *)
  | StError (msg : string)             (* st.error(msg) *)
  | StWrite (msg : string)             (* st.write(msg) *)
  | StPlotlyChart (fig : Figure).      (* st.plotly_chart(fig) *)

(** The exceptions of the pipeline. *)
Variant exn :=
  | KeyError (column : string)         (* df[column] on a missing column *)
  | IndexError                         (* .iloc[i] out of bounds *)
  | ValueError (text : string)         (* pd.to_datetime on a bad date *)
  | ServiceError (msg : string).       (* raised by the remote call *)

(** A computation reads the log of the session so far, and returns a value
    or the exception it raised, with the log extended by what it did. *)
Definition M (A : Type) : Type := list event → (exn + A) * list event.

Definition ret {A} (a : A) : M A := λ log, (inr a, log).

Definition bind {A B} (m : M A) (k : A → M B) : M B := λ log,
  match m log with
  | (inl e, log') => (inl e, log')
  | (inr a, log') => k a log'
  end.

Definition raise {A} (e : exn) : M A := λ log, (inl e, log).

Definition emit (ev : event) : M unit := λ log, (inr tt, log ++ [ev]).

Definition lift_option {A} (e : exn) (o : option A) : M A :=
  match o with Some a => ret a | None => raise e end.

Notation "'let!' x := m 'in' k" := (bind m (λ x, k))
  (at level 10, x name, m at level 100, k at level 200,
   format "'[v' 'let!'  x  :=  m  'in'  '/' k ']'").
Notation "'do!' m 'in' k" := (bind m (λ _, k))
  (at level 10, m at level 100, k at level 200,
   format "'[v' 'do!'  m  'in'  '/' k ']'").

Fixpoint mapM {A B} (f : A → M B) (l : list A) : M (list B) :=
  match l with
  | [] => ret []
  | a :: l' => let! b := f a in let! bs := mapM f l' in ret (b :: bs)
  end.

(** ** pandas *)

(** [df[name]] for a float column: a [KeyError] when the column is
    missing. *)
Definition column (name : string) (df : list ForecastRow) : M (list float64) :=
  mapM (λ r, lift_option (KeyError name) (PyDict.get name (fcols r))) df.

(** [df[name] = series], row by row; an existing column is replaced in
    place, a new one is appended as the last column. *)
Definition assign_column (name : string) (series : list float64)
    (df : list ForecastRow) : list ForecastRow :=
  zip_with (λ r v, {| fdate := fdate r; fmodel_id := fmodel_id r;
                      fcols := PyDict.set name v (fcols r) |}) df series.

(** [s.iloc[-k]] for [k > 0]: the [k]-th element from the end. *)
Definition iloc_neg {A} (k : nat) (s : list A) : M A :=
  if decide (0 < k ≤ length s) then
    lift_option IndexError (s !! (length s - k))
  else raise IndexError.

(** [df.iloc[:-k]]: all rows but the last [k]; no row when [k] is at least
    the number of rows, and ([-0] being [0]) no row for [k = 0]. *)
Definition iloc_upto_neg {A} (k : nat) (df : list A) : list A :=
  match k with
  | 0 => []
  | _ => take (length df - k) df
  end.

(** [s.min()] and [s.max()], which skip NaN and are NaN when nothing is
    left. *)
Definition series_fold (better : float64 → float64 → bool)
    (s : list float64) : float64 :=
  foldl (λ acc x,
           match x, acc with
           | S754_nan, _ => acc
           | _, S754_nan => x
           | _, _ => if better x acc then x else acc
           end) S754_nan s.

Definition series_min : list float64 → float64 := series_fold f64_ltb.
Definition series_max : list float64 → float64 :=
  series_fold (λ x acc, f64_ltb acc x).

(** ** utils.py *)

Section pipeline.
(** The remote forecasting service behind [api.th2forecast_api]: what it
    answers to a request, which may depend on everything the session did
    before, or the exception the call raises. *)
Variable th2forecast_api :
  list event → ApiRequest → exn + list RawForecast.
(** [pd.to_datetime] on one date text; [None] when it cannot be parsed. *)
Variable to_datetime : string → option timestamp.

Definition call_th2forecast_api (req : ApiRequest) : M (list RawForecast) :=
  λ log, (th2forecast_api log req, log ++ [RemoteCall req]).

(** [get_api_forecasts]: one remote call, then the answer as a DataFrame
    with [.index] renamed to [date] (and parsed) and [.value] renamed to
    the target variable. An answer without records makes a DataFrame
    without columns, on which [result['date']] is a [KeyError]. *)
Definition get_api_forecasts (actuals : list Observation)
    (fcast_horizon : nat) (group_target : option string)
    (target_var date_var : string) (models_list : list string)
  : M (list ForecastRow) :=
  let! forecasts := call_th2forecast_api
    {| req_actuals := actuals; req_fcast_horizon := fcast_horizon;
       req_group_target := group_target; req_target_var := target_var;
       req_date_var := date_var; req_models_list := models_list |} in
  match forecasts with
  | [] => raise (KeyError "date")
  | _ :: _ =>
      mapM (λ r,
              let! d := lift_option (ValueError (raw_index r))
                                    (to_datetime (raw_index r)) in
              ret {| fdate := d; fmodel_id := raw_model_id r;
                     fcols := [(target_var, raw_value r)] |})
           forecasts
  end.

(** [combine_backtest_forecast] *)
Definition combine_backtest_forecast (filtered_data backtest_data
    : list Observation) (fcast_horizon : nat) (target_var : string)
    (models : list string) : M (list ForecastRow) :=
  let! backtest_df :=
    get_api_forecasts backtest_data fcast_horizon None target_var
                      "date" models in
  let! forecast_df :=
    get_api_forecasts filtered_data fcast_horizon None target_var
                      "date" models in
  ret (backtest_df ++ forecast_df).

(** [generate_model_dict]: [{index + 1: model for index, model in
    enumerate(selected_models)}] *)
Definition generate_model_dict (selected_models : list string)
  : list (Z * string) :=
  PyDict.comprehension (λ im, Z.of_nat im.1 + 1)%Z (λ im, im.2)
                       (imap pair selected_models).

(** [split_forecasts_by_model]: the comprehension runs over the keys of
    [model_dict] in insertion order and reads [model_dict[model_id]],
    which is the value of the item. *)
Definition split_forecasts_by_model (forecast_df : list ForecastRow)
    (model_dict : list (Z * string)) : list (string * list ForecastRow) :=
  PyDict.comprehension
    (λ item, item.2)
    (λ item, filter (λ r, fmodel_id r = item.1) forecast_df)
    model_dict.

(** The traces of the models, in the order of [forecasts.items()]. *)
Definition model_traces (kind : TraceKind)
    (forecasts : list (string * list ForecastRow)) : M (list Trace) :=
  mapM (λ item,
          let! y := column "value" item.2 in
          ret {| tr_kind := kind; tr_name := item.1;
                 tr_x := fdate <$> item.2; tr_y := y |})
       forecasts.

Definition actuals_trace (kind : TraceKind)
    (filtered_data : list Observation) : Trace :=
  {| tr_kind := kind; tr_name := "Actuals";
     tr_x := date <$> filtered_data; tr_y := value <$> filtered_data |}.

(** [create_line_plot] and [create_bar_chart] *)
Definition create_plot (kind : TraceKind)
    (filtered_data : list Observation)
    (forecasts : list (string * list ForecastRow))
    (title yaxis_title : string) (zoom_range : timestamp * timestamp)
  : M Figure :=
  let! traces := model_traces kind forecasts in
  ret {| fig_traces := actuals_trace kind filtered_data :: traces;
         fig_title := title; fig_xaxis_title := "Date";
         fig_yaxis_title := yaxis_title;
         fig_xaxis_range := zoom_range |}.

Definition create_line_plot := create_plot Scatter.
Definition create_bar_chart := create_plot Bar.

(** ** app.py: the "Generate Forecast" handler *)

(** Lines 86 to 89: [df['value'] = df['value01'] * (max - min) + min]. *)
Definition rescale_value (min_value max_value v01 : float64) : float64 :=
  f64_add (f64_mul v01 (f64_sub max_value min_value)) min_value.

Definition rescale (min_value max_value : float64)
    (forecast_normalized_df : list ForecastRow) : M (list ForecastRow) :=
  let! v01 := column "value01" forecast_normalized_df in
  ret (assign_column "value"
         (rescale_value min_value max_value <$> v01)
         forecast_normalized_df).

(** Line 94. *)
Definition zoom_range_of (filtered_data : list Observation)
    (forecast_original_df : list ForecastRow) : M (timestamp * timestamp) :=
  let! first := iloc_neg 20 (date <$> filtered_data) in
  let! last := iloc_neg 1 (fdate <$> forecast_original_df) in
  ret (first, last).

(** The body of [if st.button("Generate Forecast"):], for the loaded
    [data] and the values of the three widgets. The dates of the table are
    timestamps already, so that line 70 leaves them as they are. *)
Definition generate_forecast (data : list Observation) (var : string)
    (fcast_horizon : nat) (selected_models : list string) : M unit :=
  match selected_models with
  | [] =>
      emit (StError
        "Please select at least one forecasting model before proceeding.")
  | _ :: _ =>
      let filtered_data := filter (λ o, variable o = var) data in
      let backtest_data := iloc_upto_neg fcast_horizon filtered_data in
      let model_dict := generate_model_dict selected_models in
      let! forecast_original_df :=
        combine_backtest_forecast filtered_data backtest_data
                                  fcast_horizon "value" selected_models in
      let! forecast_normalized_df :=
        combine_backtest_forecast filtered_data backtest_data
                                  fcast_horizon "value01" selected_models in
      let min_value := series_min (value <$> filtered_data) in
      let max_value := series_max (value <$> filtered_data) in
      let! forecast_normalized_df :=
        rescale min_value max_value forecast_normalized_df in
      let forecasts_original :=
        split_forecasts_by_model forecast_original_df model_dict in
      let forecasts_normalized :=
        split_forecasts_by_model forecast_normalized_df model_dict in
      let! zoom_range :=
        zoom_range_of filtered_data forecast_original_df in
      let! fig_original :=
        create_line_plot filtered_data forecasts_original
          ("Original Values Forecast Comparison with Backtest for " +:+ var)
          "Value" zoom_range in
      let! fig_normalized :=
        create_line_plot filtered_data forecasts_normalized
          ("Normalized Values Forecast Comparison with Backtest for "
             +:+ var)
          "Value" zoom_range in
      let! bar_chart_original :=
        create_bar_chart filtered_data forecasts_original
          ("Original Values Bar Chart for " +:+ var) "Value" zoom_range in
      let! bar_chart_normalized :=
        create_bar_chart filtered_data forecasts_normalized
          ("Normalized Values Bar Chart for " +:+ var) "Value"
          zoom_range in
      do! emit (StPlotlyChart fig_original) in
      do! emit (StPlotlyChart fig_normalized) in
      do! emit (StWrite "Bar Charts:") in
      do! emit (StPlotlyChart bar_chart_original) in
      emit (StPlotlyChart bar_chart_normalized)
  end.
End pipeline.

(** ** app.py: the variable selector *)

(** [variable_descriptions], lines 29 to 35. *)
Definition variable_descriptions : list (string * string) :=
  [ ("pce", "Personal Consumption Expenditures (in billions of dollars).");
    ("pop", "Total population (in thousands).");
    ("psavert", "Personal savings rate (percentage of disposable income).");
    ("uempmed", "Median duration of unemployment (in weeks).");
    ("unemploy", "Number of unemployed individuals (in thousands).") ].

(** Line 56: [[f"{key} - {value}" for key, value in descriptions.items()]]. *)
Definition dropdown_options (descriptions : list (string * string))
  : list string :=
  (λ item, item.1 +:+ " - " +:+ item.2) <$> descriptions.

(** [s.split(sep)[0]] for a separator that is not empty: the text before
    the first occurrence of the separator, all of [s] without one. *)
Fixpoint split_head (sep s : string) : string :=
  if String.prefix sep s then ""
  else match s with
       | EmptyString => ""
       | String c s' => String c (split_head sep s')
       end.

(** Line 58: [variable = selected_option.split(" - ")[0]]. *)
Definition variable_of_option (selected_option : string) : string :=
  split_head " - " selected_option.

(** [c in s] for a character. *)
Fixpoint has_char (c : ascii) (s : string) : bool :=
  match s with
  | EmptyString => false
  | String c' s' => if decide (c = c') then true else has_char c s'
  end.

(** ** Vocabulary of the statements *)

(** The events a computation added to the log. *)
Definition is_remote_call (ev : event) : bool :=
  match ev with RemoteCall _ => true | _ => false end.

Definition charts (log : list event) : list Figure :=
  omap (λ ev, match ev with StPlotlyChart fig => Some fig | _ => None end) log.

(** A forecast table with exactly [h] rows for each of the identifiers
    [1..m], and no other row. *)
Definition rows_per_model (h m : nat) (t : list ForecastRow) : Prop :=
  Forall (λ r, (1 ≤ fmodel_id r ≤ Z.of_nat m)%Z) t ∧
  Forall (λ i, length (filter (λ r, fmodel_id r = i) t) = h)
         (seqZ 1 (Z.of_nat m)).

(** All the rows that [split_forecasts_by_model] emitted, key after key. *)
Definition subtables_rows (forecasts : list (string * list ForecastRow))
  : list ForecastRow :=
  mjoin (PyDict.values forecasts).

(** The identifier that a model name ends up standing for: the last one
    that the assignment gives it. *)
Definition identifier_of (name : string) (model_dict : list (Z * string))
  : option Z :=
  fst <$> last (filter (λ item, item.2 = name) model_dict).

(** The remote calls of a log, in the order in which they were made. *)
Definition remote_calls (log : list event) : list ApiRequest :=
  omap (λ ev, match ev with RemoteCall req => Some req | _ => None end) log.

(** The request that the combiner sends for a history. *)
Definition combiner_request (actuals : list Observation)
    (fcast_horizon : nat) (target_var : string) (models : list string)
  : ApiRequest :=
  {| req_actuals := actuals; req_fcast_horizon := fcast_horizon;
     req_group_target := None; req_target_var := target_var;
     req_date_var := "date"; req_models_list := models |}.

(** A computation that makes no remote call: whatever it returns, it only
    adds to the log, and nothing of what it adds is a remote call. *)
Definition quiet {A} (m : M A) : Prop :=
  ∀ log, ∃ events,
    (m log).2 = log ++ events ∧ remote_calls events = [].

(** A computation that does not touch the log. *)
Definition silent {A} (m : M A) : Prop := ∀ log, (m log).2 = log.

(** The row that the forecast client makes of a record of the answer. *)
Definition row_of_record (target_var : string) (d : timestamp)
    (record : RawForecast) : ForecastRow :=
  {| fdate := d; fmodel_id := raw_model_id record;
     fcols := [(target_var, raw_value record)] |}.

(** ** Test doubles

    A forecasting service that answers every request with [fcast_horizon]
    rows for each requested model, identified [1..M] in the order of the
    request and dated on the days after the last day of the history; and a
    date parser for day numbers in decimal. *)

Definition f64_of_pos (p : positive) : float64 :=
  binary_normalize 53 1024 (Z.pos p) 0 false.

Definition stub_last_day (actuals : list Observation) : Z :=
  default 0%Z (last (date <$> actuals)).

Definition stub_api (log : list event) (req : ApiRequest)
  : exn + list RawForecast :=
  inr (mjoin (imap (λ i _,
         (λ k, {| raw_index :=
                    pretty (stub_last_day (req_actuals req)
                            + Z.of_nat k + 1)%Z;
                  raw_value := f64_of_pos (Pos.of_succ_nat k);
                  raw_model_id := (Z.of_nat i + 1)%Z |})
           <$> seq 0 (req_fcast_horizon req))
       (req_models_list req))).

Fixpoint parse_digits (s : string) (acc : Z) : option Z :=
  match s with
  | EmptyString => Some acc
  | String c s' =>
      let n := Z.of_nat (Ascii.nat_of_ascii c) in
      if decide (48 ≤ n ≤ 57)%Z then parse_digits s' (10 * acc + (n - 48))%Z
      else None
  end.

Definition stub_to_datetime (s : string) : option timestamp :=
  match s with
  | EmptyString => None
  | _ => parse_digits s 0
  end.

(** A forecast row without float columns. *)
Definition stub_row (d id : Z) : ForecastRow :=
  {| fdate := d; fmodel_id := id; fcols := [] |}.

(** A row of a normalized forecast table. *)
Definition stub_row01 (d id : Z) (v01 : float64) : ForecastRow :=
  {| fdate := d; fmodel_id := id; fcols := [("value01", v01)] |}.

(** 0.5 *)
Definition f64_half : float64 := S754_finite false 4503599627370496 (-53).

(** A history of [n] consecutive days of one variable. *)
Definition stub_history (var : string) (n : nat) : list Observation :=
  (λ k, {| variable := var; date := (Z.of_nat k + 1)%Z;
           value := f64_of_pos (Pos.of_succ_nat k);
           value01 := S754_zero false |}) <$> seq 0 n.

(** A forecasting service that is down. *)
Definition stub_api_down (log : list event) (req : ApiRequest)
  : exn + list RawForecast :=
  inl (ServiceError "503").

(** A forecasting service that answers with one record, dated "soon". *)
Definition stub_api_undated (log : list event) (req : ApiRequest)
  : exn + list RawForecast :=
  inr [ {| raw_index := "soon"; raw_value := f64_half; raw_model_id := 1 |} ].

(** A forecasting service that answers without records. *)
Definition stub_api_mute (log : list event) (req : ApiRequest)
  : exn + list RawForecast :=
  inr [].


(** ** Facts about lists *)

Section list_facts.
Context {A : Type} (P : A → Prop) `{!∀ x, Decision (P x)}.

Lemma filter_none (l : list A) : (∀ x, x ∈ l → ¬ P x) → filter P l = [].
Proof.
  induction l as [|x l IH]; [done|]. intros Hl.
  rewrite filter_cons_False by (apply Hl; left).
  apply IH. intros y Hy. apply Hl. by right.
Qed.

Lemma filter_all (l : list A) : (∀ x, x ∈ l → P x) → filter P l = l.
Proof.
  induction l as [|x l IH]; [done|]. intros Hl.
  rewrite filter_cons_True by (apply Hl; left). f_equal.
  apply IH. intros y Hy. apply Hl. by right.
Qed.

(** The last element that satisfies [P] has none after it. *)
Lemma last_filter_Some (l : list A) (x : A) :
  last (filter P l) = Some x →
  ∃ l1 l2, l = l1 ++ x :: l2 ∧ P x ∧ ∀ y, y ∈ l2 → ¬ P y.
Proof.
  induction l as [|y l IH] using rev_ind; [done|].
  rewrite filter_app, filter_cons, filter_nil.
  destruct (decide (P y)) as [Hy|Hy].
  - rewrite last_snoc. intros [= ->]. exists l, [].
    split_and!; [done..|]. by intros ? ?%elem_of_nil.
  - rewrite app_nil_r. intros (l1 & l2 & -> & Hx & Hl2)%IH.
    exists l1, (l2 ++ [y]). rewrite <-app_assoc. split_and!; [done..|].
    intros z [?|Hz]%elem_of_app; [by apply Hl2|].
    by apply list_elem_of_singleton in Hz as ->.
Qed.
End list_facts.

(** ** Facts about dictionaries *)

Module PyDictFacts.
Import PyDict.
Section dict.
Context {K V : Type} `{EqDecision K}.
Implicit Types (k : K) (v : V) (d : list (K * V)).

Lemma get_set_eq k v d : get k (set k v d) = Some v.
Proof.
  induction d as [|[k' v'] d IH]; simpl.
  - by rewrite decide_True.
  - destruct (decide (k = k')) as [->|Hne]; simpl.
  + by rewrite decide_True.
  + by rewrite decide_False.
Qed.

Lemma get_set_ne k k' v d : k ≠ k' → get k' (set k v d) = get k' d.
Proof.
  intros Hne. induction d as [|[k0 v0] d IH]; simpl.
  - by rewrite decide_False.
  - destruct (decide (k = k0)) as [->|Hne0]; simpl.
  + by rewrite !decide_False.
  + by rewrite IH.
Qed.

Lemma elem_of_keys k d : k ∈ keys d ↔ is_Some (get k d).
Proof.
  unfold keys. induction d as [|[k' v'] d IH]; simpl.
  - split; [by intros ?%elem_of_nil | by intros [? ?]].
  - rewrite elem_of_cons, IH. destruct (decide (k = k')); [|tauto].
  split; [eauto | auto].
Qed.

Lemma keys_set k v d :
  keys (set k v d) = if decide (k ∈ keys d) then keys d else keys d ++ [k].
Proof.
  unfold keys. induction d as [|[k' v'] d IH].
  - case_decide as Hin; [by apply elem_of_nil in Hin | done].
  - cbn [set]. destruct (decide (k = k')) as [->|Hne].
  + rewrite decide_True by (rewrite fmap_cons; left). done.
  + rewrite !fmap_cons, IH. cbn [fst].
    destruct (decide (k ∈ d.*1)) as [Hin|Hnin].
    * by rewrite decide_True by by right.
    * rewrite decide_False; [done|]. by intros [?|?]%elem_of_cons.
Qed.

Lemma NoDup_keys_set k v d : NoDup (keys d) → NoDup (keys (set k v d)).
Proof.
  intros Hd. rewrite keys_set. case_decide; [done|].
  apply NoDup_app. split_and!; [done | | apply NoDup_singleton].
  intros x Hx ->%list_elem_of_singleton. done.
Qed.

Lemma get_Some_elem_of k v d :
  NoDup (keys d) → get k d = Some v ↔ (k, v) ∈ d.
Proof.
  unfold keys. induction d as [|[k' v'] d IH]; simpl.
  - intros _. split; [done | by intros ?%elem_of_nil].
  - rewrite NoDup_cons, elem_of_cons. intros [Hk' Hd].
  destruct (decide (k = k')) as [->|Hne].
  + split; [intros [= ->]; by left|].
    intros [[= ->]|Hin]; [done|]. destruct Hk'.
    apply list_elem_of_fmap. by exists (k', v).
  + rewrite IH by done. split; [by right|]. by intros [[= ? ?]|?].
Qed.

Lemma set_fresh k v d : k ∉ keys d → set k v d = d ++ [(k, v)].
Proof.
  unfold keys. induction d as [|[k' v'] d IH]; [done|].
  rewrite fmap_cons, not_elem_of_cons. intros [Hne Hnin]. simpl.
  rewrite decide_False by done. by rewrite IH.
Qed.

Section comprehension.
Context {A : Type} (key : A → K) (val : A → V).

Lemma comprehension_snoc xs x :
  comprehension key val (xs ++ [x])
  = set (key x) (val x) (comprehension key val xs).
Proof. unfold comprehension. by rewrite foldl_app. Qed.

(** The value under a key is the one of the last element that produced
    this key: later items overwrite earlier ones. *)
Lemma get_comprehension k xs :
  get k (comprehension key val xs)
  = val <$> last (filter (λ x, key x = k) xs).
Proof.
  induction xs as [|x xs IH] using rev_ind; [done|].
  rewrite comprehension_snoc, filter_app, filter_cons, filter_nil.
  destruct (decide (key x = k)) as [<-|Hne].
  - by rewrite get_set_eq, last_snoc.
  - by rewrite get_set_ne, app_nil_r.
Qed.

Lemma NoDup_keys_comprehension xs :
  NoDup (keys (comprehension key val xs)).
Proof.
  induction xs as [|x xs IH] using rev_ind; [apply NoDup_nil_2|].
  rewrite comprehension_snoc. by apply NoDup_keys_set.
Qed.

Lemma elem_of_keys_comprehension k xs :
  k ∈ keys (comprehension key val xs) ↔ k ∈ key <$> xs.
Proof.
  rewrite elem_of_keys, get_comprehension, list_elem_of_fmap.
  split.
  - intros [v Hv]. destruct (last _) as [x|] eqn:Hlast; [|done].
  apply last_Some_elem_of, list_elem_of_filter in Hlast as [<- ?].
  eauto.
  - intros (x & -> & Hx).
  assert (x ∈ filter (λ y, key y = key x) xs) as Hin
  by by apply list_elem_of_filter.
  destruct (filter _ xs) as [|y l] using rev_ind;
  [by apply elem_of_nil in Hin|].
  rewrite last_snoc. by eexists.
Qed.
(** With distinct keys nothing is overwritten: the items are those of
    the elements, in order. *)
Lemma comprehension_NoDup xs :
  NoDup (key <$> xs) →
  comprehension key val xs = (λ x, (key x, val x)) <$> xs.
Proof.
  induction xs as [|x xs IH] using rev_ind; [done|].
  rewrite fmap_app, NoDup_app. intros (Hxs & Hx & _).
  rewrite comprehension_snoc, IH, fmap_app by done.
  apply set_fresh. unfold keys. rewrite <-list_fmap_compose.
  intros Hin. apply (Hx _ Hin). simpl. left.
Qed.

(** Keys are never more than elements, and as many only when no two
    elements share a key. *)
Lemma length_keys_comprehension xs :
  length (keys (comprehension key val xs)) ≤ length xs.
Proof.
  rewrite <-(length_fmap key xs). apply submseteq_length, NoDup_submseteq.
  - apply NoDup_keys_comprehension.
  - intros k. by rewrite elem_of_keys_comprehension.
Qed.

Lemma length_keys_comprehension_lt xs :
  ¬ NoDup (key <$> xs) →
  length (keys (comprehension key val xs)) < length xs.
Proof.
  intros Hdup. pose proof (length_keys_comprehension xs) as Hle.
  destruct (decide (length (keys (comprehension key val xs)) = length xs))
  as [Heq|]; [|lia].
  destruct Hdup. rewrite <-(length_fmap key xs) in Heq.
  assert (keys (comprehension key val xs) ≡ₚ key <$> xs) as <-;
  [|apply NoDup_keys_comprehension].
  apply submseteq_length_Permutation; [|lia].
  apply NoDup_submseteq; [apply NoDup_keys_comprehension|].
  intros k. by rewrite elem_of_keys_comprehension.
Qed.
End comprehension.
End dict.
End PyDictFacts.

(** ** The model assignment *)

Section model_dict.
Import PyDict PyDictFacts.
Implicit Types (selected_models : list string) (name : string).
Implicit Types (model_dict : list (Z * string)).
Implicit Types (forecast_df : list ForecastRow).

Lemma generate_model_dict_keys_seqZ selected_models :
  (λ im : nat * string, (Z.of_nat im.1 + 1)%Z) <$> imap pair selected_models
  = seqZ 1 (Z.of_nat (length selected_models)).
Proof.
  rewrite fmap_imap. unfold seqZ. rewrite Nat2Z.id.
  rewrite <-(imap_seq_0 selected_models (λ i, (Z.of_nat i + 1)%Z)).
  by apply imap_ext.
Qed.

(** No identifier is given twice, so building the dictionary never
    overwrites: its items are the enumeration itself. *)
Lemma generate_model_dict_items selected_models :
  generate_model_dict selected_models
  = imap (λ i name, ((Z.of_nat i + 1)%Z, name)) selected_models.
Proof.
  unfold generate_model_dict. rewrite comprehension_NoDup.
  - rewrite fmap_imap. by apply imap_ext.
  - rewrite generate_model_dict_keys_seqZ. apply NoDup_seqZ.
Qed.

Lemma generate_model_dict_keys selected_models :
  keys (generate_model_dict selected_models)
  = seqZ 1 (Z.of_nat (length selected_models)).
Proof.
  rewrite generate_model_dict_items, <-generate_model_dict_keys_seqZ.
  unfold keys. rewrite !fmap_imap. by apply imap_ext.
Qed.

Lemma generate_model_dict_NoDup selected_models :
  NoDup (keys (generate_model_dict selected_models)).
Proof. rewrite generate_model_dict_keys. apply NoDup_seqZ. Qed.

Lemma generate_model_dict_values selected_models :
  values (generate_model_dict selected_models) = selected_models.
Proof.
  rewrite generate_model_dict_items. unfold values. rewrite fmap_imap.
  rewrite <-(list_fmap_id selected_models) at 2.
  rewrite <-imap_const. by apply imap_ext.
Qed.

Lemma elem_of_generate_model_dict selected_models id name :
  (id, name) ∈ generate_model_dict selected_models ↔
  ∃ i, id = (Z.of_nat i + 1)%Z ∧ selected_models !! i = Some name.
Proof.
  rewrite generate_model_dict_items, elem_of_lookup_imap.
  split.
  - intros (i & x & ? & ?). exists i. by simplify_eq.
  - intros (i & -> & ?). by exists i, name.
Qed.

(** C6. The model assignment built from a list of N model names has the
    items [(1, name_1); ...; (N, name_N)], in the order of the list: its
    identifiers are [1..N], each once, and identifier [i + 1] stands for
    the name at (0-based) position [i]. *)
Theorem generate_model_dict_enumerates selected_models :
  let model_dict := generate_model_dict selected_models in
  model_dict = imap (λ i name, ((Z.of_nat i + 1)%Z, name)) selected_models ∧
  keys model_dict = seqZ 1 (Z.of_nat (length selected_models)) ∧
  NoDup (keys model_dict) ∧
  (∀ id, id ∈ keys model_dict ↔
         (1 ≤ id ≤ Z.of_nat (length selected_models))%Z) ∧
  (∀ i, get (Z.of_nat i + 1)%Z model_dict = selected_models !! i).
Proof.
  cbv zeta. split_and!.
  - apply generate_model_dict_items.
  - apply generate_model_dict_keys.
  - apply generate_model_dict_NoDup.
  - intros id. rewrite generate_model_dict_keys, elem_of_seqZ. lia.
  - intros i. pose proof (generate_model_dict_NoDup selected_models) as Hnd.
    destruct (selected_models !! i) as [name|] eqn:Hi.
    + apply get_Some_elem_of, elem_of_generate_model_dict; eauto.
    + destruct (get _ _) as [name|] eqn:Hget; [|done].
      apply get_Some_elem_of, elem_of_generate_model_dict in Hget
        as (j & ? & ?); [|done].
      assert (j = i) as -> by lia. congruence.
Qed.
End model_dict.

(** ** The model splitter *)

Section splitter.
Import PyDict PyDictFacts.
Implicit Types (selected_models : list string) (name : string) (id : Z).
Implicit Types (model_dict : list (Z * string)).
Implicit Types (forecast_df : list ForecastRow) (r : ForecastRow).

Lemma get_split_forecasts_by_model forecast_df model_dict name :
  get name (split_forecasts_by_model forecast_df model_dict)
  = (λ id, filter (λ r, fmodel_id r = id) forecast_df)
      <$> identifier_of name model_dict.
Proof.
  unfold split_forecasts_by_model, identifier_of.
  rewrite get_comprehension. by destruct (last _).
Qed.

Lemma keys_split_forecasts_by_model forecast_df model_dict name :
  name ∈ keys (split_forecasts_by_model forecast_df model_dict)
  ↔ name ∈ values model_dict.
Proof. apply elem_of_keys_comprehension. Qed.

Lemma identifier_of_elem_of model_dict name id :
  identifier_of name model_dict = Some id → (id, name) ∈ model_dict.
Proof.
  unfold identifier_of. destruct (last _) as [[id' name']|] eqn:Hlast;
    [|done].
  intros [= <-].
  by apply last_Some_elem_of, list_elem_of_filter in Hlast as [<- ?].
Qed.

Lemma identifier_of_is_Some model_dict name :
  name ∈ values model_dict → is_Some (identifier_of name model_dict).
Proof.
  intros ([id name'] & -> & Hin)%list_elem_of_fmap.
  unfold identifier_of.
  assert ((id, name') ∈ filter (λ item : Z * string, item.2 = name')
                                model_dict) as Hf
    by by apply list_elem_of_filter.
  destruct (filter _ model_dict) as [|y l] using rev_ind;
    [by apply elem_of_nil in Hf|].
  rewrite last_snoc. by eexists.
Qed.

(** A name that the assignment holds once stands for the identifier it
    is listed with. *)
Lemma identifier_of_unique model_dict name id :
  NoDup (values model_dict) → (id, name) ∈ model_dict →
  identifier_of name model_dict = Some id.
Proof.
  unfold identifier_of, values.
  induction model_dict as [|[id' name'] md IH]; [by intros _ ?%elem_of_nil|].
  rewrite fmap_cons, NoDup_cons, elem_of_cons, filter_cons. simpl.
  intros [Hname' Hmd] Hin. destruct (decide (name' = name)) as [->|Hne].
  - assert ((id, name) ∉ md) as Hnin.
    { intros ?. apply Hname', list_elem_of_fmap. by exists (id, name). }
    destruct Hin as [[= ->]|?]; [|done].
    rewrite filter_none; [done|].
    intros [id'' name''] ?. simpl. intros ->.
    apply Hname', list_elem_of_fmap. by exists (id'', name).
  - destruct Hin as [[= ? ?]|?]; [done|]. by apply IH.
Qed.

(** C2. The keys of the result of [split_forecasts_by_model] are the model
    names of the assignment, each once. Under a name sit the rows of the
    forecast table whose [.model_id] is the identifier of that name, in
    the order of the table ([filter] keeps the order); the identifier of a
    name is the one the assignment lists it with, the last one should the
    assignment list it several times. A name whose identifier tags no row
    is a key all the same, with an empty table. *)
Theorem split_forecasts_by_model_partitions forecast_df model_dict :
  let forecasts := split_forecasts_by_model forecast_df model_dict in
  NoDup (keys forecasts) ∧
  (∀ name, name ∈ keys forecasts ↔ name ∈ values model_dict) ∧
  (∀ name, name ∈ values model_dict →
     ∃ id, identifier_of name model_dict = Some id ∧
           (id, name) ∈ model_dict ∧
           get name forecasts
           = Some (filter (λ r, fmodel_id r = id) forecast_df)) ∧
  (∀ id name, NoDup (values model_dict) → (id, name) ∈ model_dict →
     identifier_of name model_dict = Some id ∧
     get name forecasts
     = Some (filter (λ r, fmodel_id r = id) forecast_df)) ∧
  (∀ id name, identifier_of name model_dict = Some id →
     (∀ r, r ∈ forecast_df → fmodel_id r ≠ id) →
     get name forecasts = Some []).
Proof.
  cbv zeta. split_and!.
  - apply NoDup_keys_comprehension.
  - apply keys_split_forecasts_by_model.
  - intros name [id Hid]%identifier_of_is_Some. exists id. split_and!.
    + done.
    + by apply identifier_of_elem_of.
    + by rewrite get_split_forecasts_by_model, Hid.
  - intros id name Hnd Hin.
    pose proof (identifier_of_unique _ _ _ Hnd Hin) as Hid. split; [done|].
    by rewrite get_split_forecasts_by_model, Hid.
  - intros id name Hid Hnone.
    rewrite get_split_forecasts_by_model, Hid. simpl. f_equal.
    apply filter_none. intros r Hr. by apply Hnone.
Qed.

(** *** Completeness *)

Lemma filter_elem_of_cons forecast_df id (ids : list Z) :
  id ∉ ids →
  filter (λ r, fmodel_id r ∈ id :: ids) forecast_df
  ≡ₚ filter (λ r, fmodel_id r = id) forecast_df
     ++ filter (λ r, fmodel_id r ∈ ids) forecast_df.
Proof.
  intros Hid. induction forecast_df as [|r df IH]; [done|].
  rewrite !filter_cons.
  destruct (decide (fmodel_id r = id)) as [Heq|Hne].
  - rewrite decide_True by (rewrite Heq; left).
    rewrite decide_False by by rewrite Heq. simpl. by f_equiv.
  - destruct (decide (fmodel_id r ∈ ids)) as [Hin|Hnin].
    + rewrite decide_True by by right.
      rewrite <-Permutation_middle. by f_equiv.
    + rewrite decide_False; [done|]. by intros [?|?]%elem_of_cons.
Qed.

Lemma concat_filter_by_id forecast_df (ids : list Z) :
  NoDup ids →
  mjoin ((λ id, filter (λ r, fmodel_id r = id) forecast_df) <$> ids)
  ≡ₚ filter (λ r, fmodel_id r ∈ ids) forecast_df.
Proof.
  induction 1 as [|id ids Hid Hids IH]; simpl.
  - rewrite filter_none; [done|]. by intros r _ ?%elem_of_nil.
  - by rewrite filter_elem_of_cons, IH.
Qed.

Lemma split_forecasts_by_model_NoDup forecast_df model_dict :
  NoDup (values model_dict) →
  split_forecasts_by_model forecast_df model_dict
  = (λ item, (item.2, filter (λ r, fmodel_id r = item.1) forecast_df))
      <$> model_dict.
Proof. intros Hnd. by apply comprehension_NoDup. Qed.

(** C7, as the code has it. When the model names of the assignment are
    distinct and every row carries an identifier of the assignment, the
    subtables together hold the rows of the forecast table, each as often
    as the table does. *)
Theorem split_forecasts_by_model_complete forecast_df model_dict :
  NoDup (keys model_dict) →
  NoDup (values model_dict) →
  (∀ r, r ∈ forecast_df → fmodel_id r ∈ keys model_dict) →
  subtables_rows (split_forecasts_by_model forecast_df model_dict)
  ≡ₚ forecast_df.
Proof.
  intros Hkeys Hvalues Hrows. unfold subtables_rows, values.
  rewrite split_forecasts_by_model_NoDup by done.
  rewrite <-list_fmap_compose.
  rewrite (list_fmap_ext _
    ((λ id, filter (λ r, fmodel_id r = id) forecast_df) ∘ fst) model_dict)
    by done.
  rewrite list_fmap_compose, concat_filter_by_id by done.
  by rewrite filter_all.
Qed.
End splitter.

(** C7, witness: two models and a table with rows of both. *)
Lemma split_forecasts_by_model_complete_witness :
  let forecast_df :=
    [ stub_row 4 1;
      stub_row 4 2;
      stub_row 5 1 ] in
  let model_dict := generate_model_dict ["xgboost"; "arima"] in
  NoDup (PyDict.keys model_dict) ∧
  NoDup (PyDict.values model_dict) ∧
  subtables_rows (split_forecasts_by_model forecast_df model_dict)
  ≡ₚ forecast_df.
Proof.
  cbv zeta. split_and!; [compute_done..|].
  apply split_forecasts_by_model_complete; [compute_done..|].
  intros r Hr. repeat (apply elem_of_cons in Hr as [->|Hr]; [compute_done|]).
  by apply elem_of_nil in Hr.
Defined.

(** C7, as stated, fails. A row whose identifier is not in the assignment
    is in no subtable; and when two identifiers stand for the same name, the
    rows of the first one are in no subtable. Either way the subtables do
    not give back the table. *)
Lemma split_forecasts_by_model_drops_rows :
  (let forecast_df := [stub_row 4 1; stub_row 4 2] in
   let model_dict := generate_model_dict ["xgboost"] in
   subtables_rows (split_forecasts_by_model forecast_df model_dict)
   = [stub_row 4 1] ∧
   ¬ (subtables_rows (split_forecasts_by_model forecast_df model_dict)
      ≡ₚ forecast_df)) ∧
  (let forecast_df := [stub_row 4 1; stub_row 4 2] in
   let model_dict := generate_model_dict ["xgboost"; "xgboost"] in
   subtables_rows (split_forecasts_by_model forecast_df model_dict)
   = [stub_row 4 2] ∧
   ¬ (subtables_rows (split_forecasts_by_model forecast_df model_dict)
      ≡ₚ forecast_df)).
Proof.
  cbv zeta. split; (split; [by vm_compute|]);
    intros Hperm%Permutation_length; by vm_compute in Hperm.
Qed.

(** ** Duplicated model names *)

Section duplicates.
Import PyDict PyDictFacts.
Implicit Types (selected_models : list string) (name : string) (id : Z).
Implicit Types (forecast_df : list ForecastRow) (r : ForecastRow).

Lemma generate_model_dict_lookup selected_models k id name :
  generate_model_dict selected_models !! k = Some (id, name) →
  id = (Z.of_nat k + 1)%Z.
Proof.
  rewrite generate_model_dict_items, list_lookup_imap.
  destruct (selected_models !! k); by intros [= <- ?].
Qed.

(** In the assignment of a list of names, the identifier of a name is the
    greatest one listed with it. *)
Lemma identifier_of_greatest selected_models name id id' :
  identifier_of name (generate_model_dict selected_models) = Some id →
  (id', name) ∈ generate_model_dict selected_models →
  (id' ≤ id)%Z.
Proof.
  unfold identifier_of.
  destruct (last _) as [[id0 name0]|] eqn:Hlast; [|done]. intros [= ->].
  apply last_filter_Some in Hlast as (l1 & l2 & Hmd & Hname0 & Hl2).
  simpl in Hname0. subst name0. rewrite Hmd.
  assert (id = (Z.of_nat (length l1) + 1)%Z) as Hid.
  { apply (generate_model_dict_lookup selected_models _ _ name).
    rewrite Hmd. by rewrite list_lookup_middle. }
  intros [Hin|[[= ->]|Hin]%elem_of_cons]%elem_of_app; [|lia|].
  - apply list_elem_of_lookup in Hin as [k Hk].
    pose proof (lookup_lt_Some _ _ _ Hk).
    assert (id' = (Z.of_nat k + 1)%Z); [|lia].
    apply (generate_model_dict_lookup selected_models _ _ name).
    rewrite Hmd. by rewrite lookup_app_l.
  - by destruct (Hl2 _ Hin).
Qed.

Lemma elem_of_subtables_rows forecast_df (model_dict : list (Z * string)) r :
  r ∈ subtables_rows (split_forecasts_by_model forecast_df model_dict) →
  ∃ name id, identifier_of name model_dict = Some id ∧
             fmodel_id r = id ∧ r ∈ forecast_df.
Proof.
  unfold subtables_rows, values.
  intros (sub & Hr & ([name sub'] & -> & Hin)%list_elem_of_fmap)
    %list_elem_of_join.
  apply get_Some_elem_of in Hin; [|apply NoDup_keys_comprehension].
  rewrite get_split_forecasts_by_model in Hin. simpl in Hr.
  destruct (identifier_of name model_dict) as [id|] eqn:Hid; [|done].
  simpl in Hin. injection Hin as <-.
  apply list_elem_of_filter in Hr as [? ?]. by exists name, id.
Qed.

(** C10. With a model name selected more than once, the result of the
    split has fewer keys than the assignment has identifiers. Every
    selected name is a key, once, and holds the rows of the greatest
    identifier given to it; a row tagged with a smaller identifier of that
    name is in no subtable. *)
Theorem duplicate_names_lose_rows selected_models forecast_df :
  ¬ NoDup selected_models →
  let model_dict := generate_model_dict selected_models in
  let forecasts := split_forecasts_by_model forecast_df model_dict in
  NoDup (keys forecasts) ∧
  length (keys forecasts) < length (keys model_dict) ∧
  (∀ name, name ∈ selected_models →
     ∃ id, (id, name) ∈ model_dict ∧
           (∀ id', (id', name) ∈ model_dict → (id' ≤ id)%Z) ∧
           get name forecasts
           = Some (filter (λ r, fmodel_id r = id) forecast_df)) ∧
  (∀ id id' name r,
     (id, name) ∈ model_dict → (id', name) ∈ model_dict → (id < id')%Z →
     r ∈ forecast_df → fmodel_id r = id →
     r ∉ subtables_rows forecasts).
Proof.
  intros Hdup. cbv zeta. split_and!.
  - apply NoDup_keys_comprehension.
  - unfold split_forecasts_by_model, keys at 2.
    rewrite length_fmap. apply length_keys_comprehension_lt.
    change (¬ NoDup (values (generate_model_dict selected_models))).
    by rewrite generate_model_dict_values.
  - intros name Hname.
    rewrite <-(generate_model_dict_values selected_models) in Hname.
    apply identifier_of_is_Some in Hname as [id Hid]. exists id.
    split_and!.
    + by apply identifier_of_elem_of.
    + intros id'. by apply identifier_of_greatest.
    + by rewrite get_split_forecasts_by_model, Hid.
  - intros id id' name r Hid Hid' Hlt Hr Hrid
      (name0 & id0 & Hid0 & Hrid0 & _)%elem_of_subtables_rows.
    assert (id0 = id) as -> by congruence.
    assert (name0 = name) as ->.
    { pose proof (generate_model_dict_NoDup selected_models) as Hnd.
      apply identifier_of_elem_of, (get_Some_elem_of _ _ _ Hnd) in Hid0.
      apply (get_Some_elem_of _ _ _ Hnd) in Hid. congruence. }
    pose proof (identifier_of_greatest _ _ _ _ Hid0 Hid'). lia.
Qed.
End duplicates.

(** C10, witness: "xgboost" selected twice, with rows of all three
    identifiers. *)
Lemma duplicate_names_lose_rows_witness :
  let selected_models := ["xgboost"; "arima"; "xgboost"] in
  let forecast_df := [stub_row 4 1; stub_row 4 2; stub_row 4 3] in
  ¬ NoDup selected_models ∧
  let model_dict := generate_model_dict selected_models in
  let forecasts := split_forecasts_by_model forecast_df model_dict in
  length (PyDict.keys forecasts) < length (PyDict.keys model_dict) ∧
  stub_row 4 1 ∉ subtables_rows forecasts.
Proof.
  cbv zeta.
  assert (¬ NoDup ["xgboost"; "arima"; "xgboost"]) as Hdup by compute_done.
  split; [done|].
  destruct (duplicate_names_lose_rows ["xgboost"; "arima"; "xgboost"]
              [stub_row 4 1; stub_row 4 2; stub_row 4 3] Hdup)
    as (_ & Hlt & _ & Habsent).
  split; [done|].
  apply (Habsent 1%Z 3%Z "xgboost");
    [compute_done | compute_done | lia | by left | reflexivity].
Defined.

(** ** Facts about computations *)

Section monad_facts.
Context {A B : Type}.
Implicit Types (m : M A) (k : A → M B) (log : list event).

Lemma bind_inr m k log a log' :
  m log = (inr a, log') → bind m k log = k a log'.
Proof. unfold bind. by intros ->. Qed.

Lemma bind_inr_inv m k log b log'' :
  bind m k log = (inr b, log'') →
  ∃ a log', m log = (inr a, log') ∧ k a log' = (inr b, log'').
Proof.
  unfold bind. destruct (m log) as [[e|a] log']; [done|]. by exists a, log'.
Qed.
End monad_facts.

(** ** Counting the rows of a forecast table *)

Lemma rows_per_model_length (h m : nat) (t : list ForecastRow) :
  rows_per_model h m t → length t = h * m.
Proof.
  unfold rows_per_model. rewrite !Forall_forall.
  revert t. induction m as [|m IH]; intros t [Hrange Hcount].
  - destruct t as [|r t]; [simpl; lia|].
    assert (1 ≤ fmodel_id r ≤ Z.of_nat 0)%Z by (apply Hrange; left). lia.
  - pose (top := Z.of_nat (S m)).
    rewrite <-(filter_app_complement (λ r, fmodel_id r = top) t), length_app.
    rewrite (Hcount top) by (apply elem_of_seqZ; lia).
    rewrite (IH (filter (λ r, ¬ fmodel_id r = top) t)); [lia|]. split.
    + intros r [Hne Hr%Hrange]%list_elem_of_filter. lia.
    + intros i Hi%elem_of_seqZ.
      rewrite list_filter_filter, <-(Hcount i) by (apply elem_of_seqZ; lia).
      f_equal. apply list_filter_iff. intros r. split; [by intros [? _]|].
      intros ->. split; [done|]. unfold top. lia.
Qed.

(** ** The backtest/forecast combiner *)

Section combiner.
Variable th2forecast_api :
  list event → ApiRequest → exn + list RawForecast.
Variable to_datetime : string → option timestamp.

Local Abbreviation api := th2forecast_api.
Local Abbreviation dt := to_datetime.

Implicit Types (filtered_data backtest_data : list Observation).
Implicit Types (models : list string) (log : list event).
Implicit Types (backtest_df forecast_df : list ForecastRow).

(** The outcome of the combiner is that of its two calls of the forecast
    client, the one on the backtest slice first; nothing else is looked
    at. *)
Lemma combine_backtest_forecast_unfold
    filtered_data backtest_data fcast_horizon target_var models log :
  combine_backtest_forecast api dt filtered_data backtest_data fcast_horizon
                            target_var models log
  = match get_api_forecasts api dt backtest_data fcast_horizon None target_var
                            "date" models log with
    | (inl e, log1) => (inl e, log1)
    | (inr backtest_df, log1) =>
        match get_api_forecasts api dt filtered_data fcast_horizon None
                                target_var "date" models log1 with
        | (inl e, log2) => (inl e, log2)
        | (inr forecast_df, log2) => (inr (backtest_df ++ forecast_df), log2)
        end
    end.
Proof.
  unfold combine_backtest_forecast.
  unfold bind at 1.
  destruct (get_api_forecasts api dt backtest_data _ _ _ _ _ log)
    as [[e|backtest_df] log1]; [done|].
  unfold bind.
  by destruct (get_api_forecasts api dt filtered_data _ _ _ _ _ log1)
    as [[e|forecast_df] log2].
Qed.

(** C4. Whatever tables the two calls of the forecast client return, the
    combiner returns the one for the backtest slice followed by the one
    for the full series: every row of both, as it is (its [.model_id]
    too), rows of equal date included. *)
Theorem combine_backtest_forecast_concat
    filtered_data backtest_data fcast_horizon target_var models
    log backtest_df log1 forecast_df log2 :
  get_api_forecasts api dt backtest_data fcast_horizon None target_var "date"
                    models log = (inr backtest_df, log1) →
  get_api_forecasts api dt filtered_data fcast_horizon None target_var "date"
                    models log1 = (inr forecast_df, log2) →
  ∃ combined,
    combine_backtest_forecast api dt filtered_data backtest_data fcast_horizon
                              target_var models log
    = (inr combined, log2) ∧
    combined = backtest_df ++ forecast_df ∧
    length combined = length backtest_df + length forecast_df ∧
    fmodel_id <$> combined
    = (fmodel_id <$> backtest_df) ++ (fmodel_id <$> forecast_df).
Proof.
  intros Hbacktest Hforecast. exists (backtest_df ++ forecast_df).
  rewrite combine_backtest_forecast_unfold, Hbacktest, Hforecast.
  by rewrite length_app, fmap_app.
Qed.

(** C1. For a full series of length L, a horizon H with 0 < H < L and a
    non-empty list of M distinct model names, when each of the two calls
    of the forecast client returns exactly H rows for each of the models,
    the combiner returns a table of exactly 2 * H * M rows. (The proof does
    not use the conditions on H, L and the model list.) *)
Theorem combine_backtest_forecast_row_count
    filtered_data backtest_data fcast_horizon target_var models
    log backtest_df log1 forecast_df log2 :
  0 < fcast_horizon < length filtered_data →
  models ≠ [] →
  NoDup models →
  get_api_forecasts api dt backtest_data fcast_horizon None target_var "date"
                    models log = (inr backtest_df, log1) →
  rows_per_model fcast_horizon (length models) backtest_df →
  get_api_forecasts api dt filtered_data fcast_horizon None target_var "date"
                    models log1 = (inr forecast_df, log2) →
  rows_per_model fcast_horizon (length models) forecast_df →
  ∃ combined,
    combine_backtest_forecast api dt filtered_data backtest_data fcast_horizon
                              target_var models log
    = (inr combined, log2) ∧
    length combined = 2 * fcast_horizon * length models.
Proof.
  intros _ _ _ Hbacktest Hrows1 Hforecast Hrows2.
  exists (backtest_df ++ forecast_df).
  rewrite combine_backtest_forecast_unfold, Hbacktest, Hforecast.
  split; [done|].
  rewrite length_app, (rows_per_model_length _ _ _ Hrows1),
    (rows_per_model_length _ _ _ Hrows2). lia.
Qed.

Lemma iloc_upto_neg_short {A} (k : nat) (df : list A) :
  length df ≤ k → iloc_upto_neg k df = [].
Proof.
  intros Hk. destruct k as [|k]; [done|]. unfold iloc_upto_neg.
  replace (length df - S k) with 0 by lia. apply take_0.
Qed.

(** C5, as the code has it. The combiner does not look at the length of
    the backtest slice. When the horizon is at least the length of the
    series, the slice [iloc[:-horizon]] is empty, and the combiner still
    calls the forecast client on it and then on the full series: it fails
    only when one of the two calls fails, with the exception of that call,
    and otherwise returns the two answers one after the other. *)
Theorem combine_backtest_forecast_empty_backtest
    filtered_data fcast_horizon target_var models log :
  length filtered_data ≤ fcast_horizon →
  iloc_upto_neg fcast_horizon filtered_data = [] ∧
  combine_backtest_forecast api dt filtered_data
    (iloc_upto_neg fcast_horizon filtered_data) fcast_horizon
    target_var models log
  = match get_api_forecasts api dt [] fcast_horizon None target_var "date"
                            models log with
    | (inl e, log1) => (inl e, log1)
    | (inr backtest_df, log1) =>
        match get_api_forecasts api dt filtered_data fcast_horizon None
                                target_var "date" models log1 with
        | (inl e, log2) => (inl e, log2)
        | (inr forecast_df, log2) => (inr (backtest_df ++ forecast_df), log2)
        end
    end.
Proof.
  intros Hshort. rewrite (iloc_upto_neg_short _ _ Hshort). split; [done|].
  apply combine_backtest_forecast_unfold.
Qed.
End combiner.

(** C4, witness: five days of history, a horizon of two days, two models. *)
Lemma combine_backtest_forecast_concat_witness :
  let filtered_data := stub_history "pop" 5 in
  let backtest_data := iloc_upto_neg 2 filtered_data in
  ∃ combined log',
    combine_backtest_forecast stub_api stub_to_datetime filtered_data
      backtest_data 2 "value" ["xgboost"; "arima"] []
    = (inr combined, log') ∧
    fmodel_id <$> combined = [1; 1; 2; 2; 1; 1; 2; 2]%Z.
Proof.
  cbv zeta.
  edestruct (combine_backtest_forecast_concat stub_api stub_to_datetime
               (stub_history "pop" 5)
               (iloc_upto_neg 2 (stub_history "pop" 5))
               2 "value" ["xgboost"; "arima"] [])
    as (combined & Hrun & _ & _ & Hids).
  - vm_compute. reflexivity.
  - vm_compute. reflexivity.
  - eexists _, _. split; [exact Hrun|]. rewrite Hids. reflexivity.
Defined.

(** C1, witness: L = 5, H = 2, M = 2, hence 8 rows. *)
Lemma combine_backtest_forecast_row_count_witness :
  let filtered_data := stub_history "pop" 5 in
  let backtest_data := iloc_upto_neg 2 filtered_data in
  0 < 2 < length filtered_data ∧
  NoDup ["xgboost"; "arima"] ∧
  ∃ combined log',
    combine_backtest_forecast stub_api stub_to_datetime filtered_data
      backtest_data 2 "value" ["xgboost"; "arima"] []
    = (inr combined, log') ∧
    length combined = 8.
Proof.
  cbv zeta.
  assert (0 < 2 < length (stub_history "pop" 5)) as Hh
    by (vm_compute; lia).
  assert (NoDup ["xgboost"; "arima"]) as Hnd by compute_done.
  split; [done|]. split; [done|].
  edestruct (combine_backtest_forecast_row_count stub_api stub_to_datetime
               (stub_history "pop" 5)
               (iloc_upto_neg 2 (stub_history "pop" 5))
               2 "value" ["xgboost"; "arima"] [])
    as (combined & Hrun & Hlen); [exact Hh | done | exact Hnd | ..].
  - vm_compute. reflexivity.
  - unfold rows_per_model. compute_done.
  - vm_compute. reflexivity.
  - unfold rows_per_model. compute_done.
  - eexists _, _. split; [exact Hrun | exact Hlen].
Defined.

(** C5, witness: three days of history and a horizon of five days. *)
Lemma combine_backtest_forecast_empty_backtest_witness :
  let filtered_data := stub_history "pop" 3 in
  length filtered_data ≤ 5 ∧
  iloc_upto_neg 5 filtered_data = [] ∧
  ∃ combined log',
    combine_backtest_forecast stub_api stub_to_datetime filtered_data
      (iloc_upto_neg 5 filtered_data) 5 "value" ["xgboost"] []
    = (inr combined, log').
Proof.
  cbv zeta.
  assert (length (stub_history "pop" 3) ≤ 5) as Hshort by (vm_compute; lia).
  split; [done|].
  destruct (combine_backtest_forecast_empty_backtest stub_api
              stub_to_datetime (stub_history "pop" 3) 5 "value" ["xgboost"]
              [] Hshort) as [Hempty Hrun].
  split; [exact Hempty|]. rewrite Hrun. vm_compute. eexists _, _. reflexivity.
Defined.

(** C5, as stated, fails: with a horizon greater than the length of the
    series the backtest slice has no row, and the combiner returns a table
    instead of failing. *)
Lemma combine_backtest_forecast_accepts_empty_backtest :
  let filtered_data := stub_history "pop" 3 in
  let backtest_data := iloc_upto_neg 5 filtered_data in
  length backtest_data = 0 ∧
  ∃ combined log',
    combine_backtest_forecast stub_api stub_to_datetime filtered_data
      backtest_data 5 "value" ["xgboost"] []
    = (inr combined, log') ∧
    length combined = 10.
Proof.
  cbv zeta. split; [reflexivity|]. vm_compute. eexists _, _.
  split; reflexivity.
Qed.

(** ** The rescaling step *)

Section rescaling.
Import PyDict PyDictFacts.
Implicit Types (x y min_value max_value : float64).

Lemma f64_eqb_refl x : f64_is_finite x = true → f64_eqb x x = true.
Proof.
  unfold f64_eqb, SFeqb. destruct x as [s|s| |s m e]; try done. intros _.
  simpl. rewrite Z.compare_refl, Pos.compare_cont_refl. by destruct s.
Qed.

(** Equal numbers are both zero, or have the same sign, mantissa and
    exponent. *)
Lemma f64_eqb_finite x y :
  f64_is_finite y = true → f64_eqb x y = true →
  (∃ s s', x = S754_zero s ∧ y = S754_zero s') ∨
  (∃ s m e, x = S754_finite s m e ∧ y = S754_finite s m e).
Proof.
  unfold f64_eqb, SFeqb.
  destruct x as [s|s| |s m e], y as [s'|s'| |s' m' e']; try done; intros _.
  - left. by exists s, s'.
  - simpl. by destruct s'.
  - simpl. by destruct s.
  - simpl. by destruct s.
  - simpl. by destruct s.
  - right. simpl in *.
    destruct s, s'; try done;
      destruct (e ?= e')%Z eqn:He; try done;
      apply Z.compare_eq in He as ->;
      destruct (Pos.compare_cont Eq m m') eqn:Hm; try done;
      apply Pos.compare_eq in Hm as ->; by eexists _, _, _.
Qed.

Lemma f64_sub_eq x y :
  f64_is_finite y = true → f64_eqb x y = true →
  ∃ s, f64_sub x y = S754_zero s.
Proof.
  intros Hy Heq.
  destruct (f64_eqb_finite _ _ Hy Heq)
    as [(s & s' & -> & ->)|(s & m & e & -> & ->)].
  - destruct s, s'; by eexists.
  - exists false. unfold f64_sub, SFsub. by rewrite Z.sub_diag.
Qed.

Lemma f64_mul_zero (v01 : float64) s :
  f64_is_finite v01 = true → ∃ s', f64_mul v01 (S754_zero s) = S754_zero s'.
Proof. destruct v01; try done; intros _; by eexists. Qed.

Lemma f64_add_zero s y :
  f64_is_finite y = true → f64_eqb (f64_add (S754_zero s) y) y = true.
Proof.
  destruct y as [s'| | |s' m e]; try done; intros _.
  - by destruct s, s'.
  - by apply f64_eqb_refl.
Qed.

(** In the degenerate case every number is rescaled to the minimum. *)
Lemma rescale_value_degenerate min_value max_value (v01 : float64) :
  f64_is_finite v01 = true →
  f64_is_finite min_value = true →
  f64_eqb max_value min_value = true →
  f64_eqb (rescale_value min_value max_value v01) min_value = true.
Proof.
  intros Hv Hmin Heq. unfold rescale_value.
  destruct (f64_sub_eq _ _ Hmin Heq) as [s ->].
  destruct (f64_mul_zero v01 s Hv) as [s' ->].
  by apply f64_add_zero.
Qed.

(** Reading a column that every row has gives its values, row by row, and
    does nothing else. *)
Lemma column_Forall2 name (df : list ForecastRow) log :
  Forall (λ r, is_Some (get name (fcols r))) df →
  ∃ series,
    column name df log = (inr series, log) ∧
    Forall2 (λ r v, get name (fcols r) = Some v) df series.
Proof.
  unfold column. induction 1 as [|r df [v Hv] Hdf (series & Hrun & Hall)].
  - by exists [].
  - exists (v :: series). split; [|by constructor].
    cbn [mapM]. rewrite Hv. simpl.
    rewrite (bind_inr _ _ log v log) by done.
    by rewrite (bind_inr _ _ log series log).
Qed.

Lemma assign_column_Forall2 name (f : float64 → float64)
    (df : list ForecastRow) (series : list float64) :
  Forall2 (λ r v, get name (fcols r) = Some v) df series →
  Forall2 (λ r r', ∃ v, get name (fcols r) = Some v ∧
                        r' = {| fdate := fdate r; fmodel_id := fmodel_id r;
                                fcols := set "value" (f v) (fcols r) |})
          df (assign_column "value" (f <$> series) df).
Proof.
  unfold assign_column. induction 1 as [|r v df series Hv Hall IH]; simpl.
  - constructor.
  - constructor; [by exists v | done].
Qed.

(** The rescaling step on a table whose rows all have a [value01]. *)
Lemma rescale_inr min_value max_value (df : list ForecastRow) log :
  Forall (λ r, is_Some (get "value01" (fcols r))) df →
  ∃ rescaled,
    rescale min_value max_value df log = (inr rescaled, log) ∧
    Forall2 (λ r r', ∃ v01,
               get "value01" (fcols r) = Some v01 ∧
               r' = {| fdate := fdate r; fmodel_id := fmodel_id r;
                       fcols := set "value"
                                    (rescale_value min_value max_value v01)
                                    (fcols r) |})
            df rescaled.
Proof.
  intros Hcolumn. unfold rescale.
  destruct (column_Forall2 "value01" _ log Hcolumn) as (series & Hrun & Hall).
  eexists. split; [by rewrite (bind_inr _ _ _ _ _ Hrun)|].
  by apply (assign_column_Forall2 "value01"
              (rescale_value min_value max_value)).
Qed.

(** C3. The rescaling step, run with the minimum and the maximum of the
    [value] column of the variable's history, succeeds on a table whose rows
    all have a [value01], touches nothing outside the table, and returns,
    row by row, the row with the column [value] set to
    [value01 * (max - min) + min] (in float64 arithmetic) and everything
    else as it was. When the maximum equals the minimum, the [value] of a
    row equals the minimum; this is for numbers, that is a [value01] and a
    minimum other than NaN and the infinities. *)
Theorem rescale_rowwise (filtered_data : list Observation)
    (forecast_normalized_df : list ForecastRow) log :
  let min_value := series_min (value <$> filtered_data) in
  let max_value := series_max (value <$> filtered_data) in
  Forall (λ r, is_Some (get "value01" (fcols r))) forecast_normalized_df →
  ∃ rescaled,
    rescale min_value max_value forecast_normalized_df log
    = (inr rescaled, log) ∧
    Forall2 (λ r r', ∃ v01 v,
               get "value01" (fcols r) = Some v01 ∧
               v = f64_add (f64_mul v01 (f64_sub max_value min_value))
                           min_value ∧
               fdate r' = fdate r ∧
               fmodel_id r' = fmodel_id r ∧
               fcols r' = set "value" v (fcols r) ∧
               get "value" (fcols r') = Some v ∧
               (∀ name, name ≠ "value" →
                        get name (fcols r') = get name (fcols r)) ∧
               (f64_is_finite v01 = true →
                f64_is_finite min_value = true →
                f64_eqb max_value min_value = true →
                f64_eqb v min_value = true))
            forecast_normalized_df rescaled.
Proof.
  intros min_value max_value Hcolumn.
  destruct (rescale_inr min_value max_value _ log Hcolumn)
    as (rescaled & Hrun & Hrows).
  exists rescaled. split; [done|].
  eapply Forall2_impl; [exact Hrows|].
  intros r r' (v01 & Hv01 & ->).
    exists v01, (rescale_value min_value max_value v01). simpl.
    split_and!; try done.
    + apply get_set_eq.
    + intros name Hname. by apply get_set_ne.
    + apply rescale_value_degenerate.
Qed.
End rescaling.

(** C3, witness: a history with the single value 1.0, so that the minimum
    and the maximum are both 1.0, and a forecast row with [value01] 0.5. *)
Lemma rescale_rowwise_witness :
  let filtered_data := stub_history "pop" 1 in
  let min_value := series_min (value <$> filtered_data) in
  let max_value := series_max (value <$> filtered_data) in
  let row := stub_row01 2 1 f64_half in
  Forall (λ r, is_Some (PyDict.get "value01" (fcols r))) [row] ∧
  f64_eqb max_value min_value = true ∧
  ∃ rescaled v,
    rescale min_value max_value [row] [] = (inr [rescaled], []) ∧
    PyDict.get "value" (fcols rescaled) = Some v ∧
    f64_eqb v min_value = true.
Proof.
  cbv zeta.
  assert (Forall (λ r, is_Some (PyDict.get "value01" (fcols r)))
                 [stub_row01 2 1 f64_half])
    as Hcolumn by (constructor; [by eexists | constructor]).
  split; [exact Hcolumn|]. split; [reflexivity|].
  destruct (rescale_rowwise (stub_history "pop" 1) _ [] Hcolumn)
    as (rescaled & Hrun & Hrows).
  apply Forall2_cons_inv_l in Hrows
    as (r' & rest & (v01 & v & Hv01 & _ & _ & _ & _ & Hv & _ & Heq)
        & ->%Forall2_nil_inv_l & ->).
  exists r', v. split; [exact Hrun|]. split; [exact Hv|].
  apply Heq; [|reflexivity..]. injection Hv01 as <-. reflexivity.
Defined.

(** ** The "Generate Forecast" handler *)

Section handler.
Import PyDict PyDictFacts.
Variable th2forecast_api :
  list event → ApiRequest → exn + list RawForecast.
Variable to_datetime : string → option timestamp.

Local Abbreviation api := th2forecast_api.
Local Abbreviation dt := to_datetime.

Implicit Types (data filtered_data backtest_data : list Observation).
Implicit Types (models selected_models : list string) (log : list event).
Implicit Types (df : list ForecastRow) (r : ForecastRow).

(** C8. With no model selected, the handler shows the message asking for a
    model and does nothing else: it completes, and the only thing it adds to
    the log of the session is that [st.error]; no remote call is made. *)
Theorem generate_forecast_empty_selection data var fcast_horizon log :
  ∃ events,
    generate_forecast api dt data var fcast_horizon [] log
    = (inr tt, log ++ events) ∧
    events = [StError
      "Please select at least one forecasting model before proceeding."] ∧
    Forall (λ ev, is_remote_call ev = false) events.
Proof.
  eexists. split; [reflexivity|]. split; [reflexivity|].
  by repeat constructor.
Qed.

Lemma mapM_inr_inv {A B} (f : A → M B) (l : list A) log bs log' :
  mapM f l log = (inr bs, log') →
  Forall2 (λ a b, ∃ log1 log2, f a log1 = (inr b, log2)) l bs.
Proof.
  revert log bs. induction l as [|a l IH]; intros log bs; cbn [mapM].
  - intros [= <- _]. constructor.
  - intros (b & log1 & Hb & (bs' & log2 & Hbs & [= <- <-])%bind_inr_inv)
      %bind_inr_inv.
    constructor; [by eauto | by eapply IH].
Qed.

(** A computation that leaves the log alone on every element does so on the
    list. *)
Lemma mapM_pure {A B} (f : A → M B) (l : list A) log :
  Forall (λ a, ∃ b, f a log = (inr b, log)) l →
  ∃ bs, mapM f l log = (inr bs, log) ∧ length bs = length l.
Proof.
  induction 1 as [|a l [b Hb] Hl (bs & Hbs & Hlen)]; cbn [mapM].
  - by exists [].
  - exists (b :: bs). rewrite (bind_inr _ _ _ _ _ Hb), (bind_inr _ _ _ _ _ Hbs).
    split; [done|]. simpl. by rewrite Hlen.
Qed.

(** The forecast client returns tables that have the target column. *)
Lemma get_api_forecasts_column
    (actuals : list Observation) fcast_horizon group_target target_var
    date_var models log df log' :
  get_api_forecasts api dt actuals fcast_horizon group_target target_var
                    date_var models log = (inr df, log') →
  Forall (λ r, is_Some (get target_var (fcols r))) df.
Proof.
  unfold get_api_forecasts.
  intros (raw & log1 & _ & Hall)%bind_inr_inv.
  destruct raw as [|a0 raw0]; [done|]. apply mapM_inr_inv in Hall.
  revert Hall. generalize (a0 :: raw0). intros raw Hall.
  induction Hall as [|a r raw df (l1 & l2 & Ha) _ IH]; constructor; [|done].
  apply bind_inr_inv in Ha as (d & l3 & _ & [= <- _]). simpl.
  rewrite decide_True by done. by eexists.
Qed.

Lemma combine_backtest_forecast_column
    filtered_data backtest_data fcast_horizon target_var models log df log' :
  combine_backtest_forecast api dt filtered_data backtest_data fcast_horizon
                            target_var models log = (inr df, log') →
  Forall (λ r, is_Some (get target_var (fcols r))) df.
Proof.
  unfold combine_backtest_forecast.
  intros (df1 & log1 & H1%get_api_forecasts_column &
          (df2 & log2 & H2%get_api_forecasts_column & [= <- _])%bind_inr_inv)
    %bind_inr_inv.
  by apply Forall_app.
Qed.

Lemma rescale_value_column min_value max_value df log rescaled log' :
  Forall (λ r, is_Some (get "value01" (fcols r))) df →
  rescale min_value max_value df log = (inr rescaled, log') →
  log' = log ∧ Forall (λ r, is_Some (get "value" (fcols r))) rescaled.
Proof.
  intros Hcolumn Hrun.
  destruct (rescale_inr min_value max_value df log Hcolumn)
    as (rescaled' & Hrun' & Hrows).
  rewrite Hrun' in Hrun. injection Hrun as <- <-. split; [done|].
  clear Hcolumn Hrun'.
  induction Hrows as [|r r' df rescaled (v01 & _ & ->) _ IH];
    constructor; [|done].
  simpl. rewrite get_set_eq. by eexists.
Qed.

(** The subtables of a split are made of rows of the table. *)
Lemma split_forecasts_by_model_Forall (P : ForecastRow → Prop) df
    (model_dict : list (Z * string)) :
  Forall P df →
  Forall (λ item, Forall P item.2) (split_forecasts_by_model df model_dict).
Proof.
  intros Hdf. apply Forall_forall. intros [name sub] Hin.
  apply get_Some_elem_of in Hin; [|apply NoDup_keys_comprehension].
  rewrite get_split_forecasts_by_model in Hin.
  destruct (identifier_of name model_dict) as [id|]; [|done].
  injection Hin as <-. simpl. apply Forall_forall.
  intros r [_ Hr]%list_elem_of_filter. by eapply Forall_forall in Hdf.
Qed.

Lemma iloc_neg_inr {A} (k : nat) (s : list A) log :
  0 < k ≤ length s →
  ∃ x, s !! (length s - k) = Some x ∧ iloc_neg k s log = (inr x, log).
Proof.
  intros Hk. unfold iloc_neg. rewrite decide_True by done.
  destruct (s !! (length s - k)) as [x|] eqn:Hx; [by exists x|].
  apply lookup_ge_None in Hx. lia.
Qed.

(** Line 94 succeeds with at least 20 rows of history and at least one
    forecast row, and leaves the log alone. *)
Lemma zoom_range_of_inr filtered_data df log :
  20 ≤ length filtered_data → df ≠ [] →
  ∃ first_obs last_row,
    filtered_data !! (length filtered_data - 20) = Some first_obs ∧
    last df = Some last_row ∧
    zoom_range_of filtered_data df log
    = (inr (date first_obs, fdate last_row), log).
Proof.
  intros Hlen Hdf. unfold zoom_range_of.
  destruct (iloc_neg_inr 20 (date <$> filtered_data) log)
    as (d1 & Hd1 & Hrun1); [rewrite length_fmap; lia|].
  destruct (iloc_neg_inr 1 (fdate <$> df) log) as (d2 & Hd2 & Hrun2).
  { rewrite length_fmap. destruct df; [done|simpl; lia]. }
  rewrite length_fmap, list_lookup_fmap in Hd1.
  rewrite length_fmap, list_lookup_fmap in Hd2.
  destruct (filtered_data !! _) as [first_obs|] eqn:Hfirst; [|done].
  destruct (df !! _) as [last_row|] eqn:Hlast; [|done].
  injection Hd1 as <-. injection Hd2 as <-.
  exists first_obs, last_row. split; [done|]. split.
  - rewrite last_lookup. by replace (pred (length df)) with (length df - 1)
      by lia.
  - by rewrite (bind_inr _ _ _ _ _ Hrun1), (bind_inr _ _ _ _ _ Hrun2).
Qed.

(** A figure is built from forecasts whose rows have a [value], without
    touching the log; its range is the one given. *)
Lemma create_plot_inr kind filtered_data
    (forecasts : list (string * list ForecastRow)) title yaxis_title
    zoom_range log :
  Forall (λ item, Forall (λ r, is_Some (get "value" (fcols r))) item.2)
         forecasts →
  ∃ fig,
    create_plot kind filtered_data forecasts title yaxis_title zoom_range log
    = (inr fig, log) ∧
    fig_xaxis_range fig = zoom_range ∧
    length (fig_traces fig) = S (length forecasts).
Proof.
  intros Hvalue. unfold create_plot, model_traces.
  edestruct (mapM_pure (λ item : string * list ForecastRow,
               let! y := column "value" item.2 in
               ret {| tr_kind := kind; tr_name := item.1;
                      tr_x := fdate <$> item.2; tr_y := y |})
               forecasts log) as (traces & Hrun & Hlen).
  { eapply Forall_impl; [exact Hvalue|]. intros [name sub] Hsub.
    destruct (column_Forall2 "value" sub log Hsub) as (y & Hy & _).
    eexists. by rewrite (bind_inr _ _ _ _ _ Hy). }
  eexists. rewrite (bind_inr _ _ _ _ _ Hrun).
  split; [reflexivity|]. split; [done|]. simpl. by rewrite Hlen.
Qed.

(** C9. When a model is selected, both combiner runs succeed, the variable
    has at least 20 observations and the combined table of the original
    values is not empty, the handler completes and shows four charts, and
    the range of the date axis of each of them goes from the date of the
    20th observation from the end of the variable's history to the date of
    the last row of the combined forecast table of the original values. *)
Theorem generate_forecast_zoom_range data var fcast_horizon selected_models
    log forecast_original_df log1 forecast_normalized_df log2 :
  let filtered_data := filter (λ o, variable o = var) data in
  let backtest_data := iloc_upto_neg fcast_horizon filtered_data in
  selected_models ≠ [] →
  combine_backtest_forecast api dt filtered_data backtest_data fcast_horizon
    "value" selected_models log = (inr forecast_original_df, log1) →
  combine_backtest_forecast api dt filtered_data backtest_data fcast_horizon
    "value01" selected_models log1 = (inr forecast_normalized_df, log2) →
  20 ≤ length filtered_data →
  forecast_original_df ≠ [] →
  ∃ first_obs last_row events,
    filtered_data !! (length filtered_data - 20) = Some first_obs ∧
    last forecast_original_df = Some last_row ∧
    generate_forecast api dt data var fcast_horizon selected_models log
    = (inr tt, log2 ++ events) ∧
    length (charts events) = 4 ∧
    Forall (λ fig, fig_xaxis_range fig = (date first_obs, fdate last_row))
           (charts events).
Proof.
  intros filtered_data backtest_data Hmodels Horiginal Hnormalized Hlen Hrows.
  destruct (zoom_range_of_inr filtered_data forecast_original_df log2
              Hlen Hrows) as (first_obs & last_row & Hfirst & Hlast & Hzoom).
  exists first_obs, last_row.
  pose proof (combine_backtest_forecast_column _ _ _ _ _ _ _ _ Horiginal)
    as Hvalue.
  pose proof (combine_backtest_forecast_column _ _ _ _ _ _ _ _ Hnormalized)
    as Hvalue01.
  destruct (rescale_inr (series_min (value <$> filtered_data))
              (series_max (value <$> filtered_data))
              forecast_normalized_df log2 Hvalue01)
    as (rescaled & Hrescale & _).
  destruct (rescale_value_column _ _ _ _ _ _ Hvalue01 Hrescale)
    as [_ Hrescaled].
  set (model_dict := generate_model_dict selected_models).
  pose proof (split_forecasts_by_model_Forall _ _ model_dict Hvalue)
    as Hsplit.
  pose proof (split_forecasts_by_model_Forall _ _ model_dict Hrescaled)
    as Hsplit'.
  set (zoom := (date first_obs, fdate last_row)) in *.
  destruct (create_plot_inr Scatter filtered_data _
              ("Original Values Forecast Comparison with Backtest for "
                 +:+ var) "Value" zoom log2 Hsplit)
    as (fig1 & Hfig1 & Hrange1 & _).
  destruct (create_plot_inr Scatter filtered_data _
              ("Normalized Values Forecast Comparison with Backtest for "
                 +:+ var) "Value" zoom log2 Hsplit')
    as (fig2 & Hfig2 & Hrange2 & _).
  destruct (create_plot_inr Bar filtered_data _
              ("Original Values Bar Chart for " +:+ var) "Value" zoom log2
              Hsplit)
    as (fig3 & Hfig3 & Hrange3 & _).
  destruct (create_plot_inr Bar filtered_data _
              ("Normalized Values Bar Chart for " +:+ var) "Value" zoom log2
              Hsplit')
    as (fig4 & Hfig4 & Hrange4 & _).
  exists [StPlotlyChart fig1; StPlotlyChart fig2; StWrite "Bar Charts:";
          StPlotlyChart fig3; StPlotlyChart fig4].
  split; [done|]. split; [done|]. split; [|split; [done|]].
  - destruct selected_models as [|model models]; [done|].
    unfold generate_forecast. cbv zeta.
    fold filtered_data. fold backtest_data.
    rewrite (bind_inr _ _ _ _ _ Horiginal), (bind_inr _ _ _ _ _ Hnormalized).
    rewrite (bind_inr _ _ _ _ _ Hrescale), (bind_inr _ _ _ _ _ Hzoom).
    unfold create_line_plot, create_bar_chart. fold model_dict.
    rewrite (bind_inr _ _ _ _ _ Hfig1), (bind_inr _ _ _ _ _ Hfig2).
    rewrite (bind_inr _ _ _ _ _ Hfig3), (bind_inr _ _ _ _ _ Hfig4).
    unfold bind, emit. by rewrite <-!app_assoc.
  - simpl. by repeat constructor.
Qed.
End handler.

(** C9, witness: 25 days of history (days 1 to 25), a horizon of 2 days and
    one model; the charts go from day 6 to day 27. *)
Lemma generate_forecast_zoom_range_witness :
  ∃ events,
    generate_forecast stub_api stub_to_datetime (stub_history "pop" 25)
                      "pop" 2 ["xgboost"] []
    = (inr tt, events) ∧
    length (charts events) = 4 ∧
    Forall (λ fig, fig_xaxis_range fig = (6, 27)%Z) (charts events).
Proof.
  edestruct (generate_forecast_zoom_range stub_api stub_to_datetime
               (stub_history "pop" 25) "pop" 2 ["xgboost"] [])
    as (first_obs & last_row & events & Hfirst & Hlast & Hrun & Hlen & Hall).
  - done.
  - vm_compute. reflexivity.
  - vm_compute. reflexivity.
  - vm_compute. lia.
  - done.
  - vm_compute in Hfirst. injection Hfirst as <-.
    vm_compute in Hlast. injection Hlast as <-.
    eexists. split; [exact Hrun|]. split; [exact Hlen | exact Hall].
Defined.

(** ** What computations do to the log *)

Lemma silent_ret {A} (a : A) : silent (ret a).
Proof. done. Qed.

Lemma silent_raise {A} (e : exn) : silent (@raise A e).
Proof. done. Qed.

Lemma silent_lift_option {A} (e : exn) (o : option A) :
  silent (lift_option e o).
Proof. by destruct o. Qed.

Lemma silent_bind {A B} (m : M A) (k : A → M B) :
  silent m → (∀ a, silent (k a)) → silent (bind m k).
Proof.
  intros Hm Hk log. unfold bind. specialize (Hm log).
  destruct (m log) as [[e|a] log']; simpl in *; [done|].
  by rewrite Hk, Hm.
Qed.

Lemma silent_mapM {A B} (f : A → M B) (l : list A) :
  (∀ a, silent (f a)) → silent (mapM f l).
Proof.
  intros Hf. induction l as [|a l IH]; cbn [mapM]; [done|].
  apply silent_bind; [done|]. intros b.
  apply silent_bind; [done|]. by intros bs.
Qed.

Lemma silent_quiet {A} (m : M A) : silent m → quiet m.
Proof. intros Hm log. exists []. by rewrite app_nil_r. Qed.

Lemma quiet_bind {A B} (m : M A) (k : A → M B) :
  quiet m → (∀ a, quiet (k a)) → quiet (bind m k).
Proof.
  intros Hm Hk log. unfold bind. destruct (Hm log) as (events & Hlog & Hnone).
  destruct (m log) as [[e|a] log']; simpl in *; [by exists events|].
  destruct (Hk a log') as (events' & Hlog' & Hnone').
  exists (events ++ events'). rewrite Hlog', Hlog, app_assoc. split; [done|].
  unfold remote_calls in *. by rewrite omap_app, Hnone, Hnone'.
Qed.
Lemma quiet_emit (ev : event) : is_remote_call ev = false → quiet (emit ev).
Proof. intros Hev log. exists [ev]. split; [done|]. by destruct ev. Qed.

Lemma remote_calls_app (log log' : list event) :
  remote_calls (log ++ log') = remote_calls log ++ remote_calls log'.
Proof. apply omap_app. Qed.

Create HintDb log_effects.
#[local] Hint Resolve silent_ret silent_raise silent_lift_option silent_bind
  silent_mapM : log_effects.

Ltac silently := eauto 10 with log_effects.

(** ** The forecast client *)

Section client.
Variable th2forecast_api :
  list event → ApiRequest → exn + list RawForecast.
Variable to_datetime : string → option timestamp.

Local Abbreviation api := th2forecast_api.
Local Abbreviation dt := to_datetime.

Implicit Types (actuals : list Observation) (log : list event).
Implicit Types (answer : list RawForecast) (record : RawForecast).

(** The rows of an answer, as long as the dates can be read. *)
Lemma mapM_rows target_var answer (dates : list timestamp) log :
  Forall2 (λ record d, dt (raw_index record) = Some d) answer dates →
  mapM (λ r, let! d := lift_option (ValueError (raw_index r))
                                   (dt (raw_index r)) in
             ret {| fdate := d; fmodel_id := raw_model_id r;
                    fcols := [(target_var, raw_value r)] |}) answer log
  = (inr (zip_with (λ record d, row_of_record target_var d record)
                   answer dates), log).
Proof.
  induction 1 as [|record d answer dates Hd _ IH]; [done|].
  cbn [mapM]. rewrite Hd. simpl. unfold bind at 1. simpl.
  unfold bind at 1. by rewrite IH.
Qed.

(** The first date that cannot be read stops the conversion. *)
Lemma mapM_rows_bad_date target_var (good rest : list RawForecast) bad log :
  Forall (λ record, is_Some (dt (raw_index record))) good →
  dt (raw_index bad) = None →
  mapM (λ r, let! d := lift_option (ValueError (raw_index r))
                                   (dt (raw_index r)) in
             ret {| fdate := d; fmodel_id := raw_model_id r;
                    fcols := [(target_var, raw_value r)] |})
       (good ++ bad :: rest) log
  = (inl (ValueError (raw_index bad)), log).
Proof.
  intros Hgood Hbad. induction Hgood as [|record good [d Hd] _ IH].
  - cbn [app mapM]. by rewrite Hbad.
  - cbn [app mapM]. rewrite Hd. simpl. unfold bind at 1. simpl.
    unfold bind at 1. by rewrite IH.
Qed.

(** X1. Whatever the service answers and whatever becomes of the answer,
    [get_api_forecasts] makes one remote call and no other: the log gains
    the request with the arguments it was given, and nothing else. *)
Theorem get_api_forecasts_one_call actuals fcast_horizon group_target
    target_var date_var models_list log :
  (get_api_forecasts api dt actuals fcast_horizon group_target target_var
                     date_var models_list log).2
  = log ++ [RemoteCall
      {| req_actuals := actuals; req_fcast_horizon := fcast_horizon;
         req_group_target := group_target; req_target_var := target_var;
         req_date_var := date_var; req_models_list := models_list |}].
Proof.
  unfold get_api_forecasts, bind, call_th2forecast_api.
  destruct (api log _) as [e|[|record answer]]; [done..|].
  apply (silent_mapM _ (record :: answer)). intros r. silently.
Qed.

(** X2. An exception of the remote call is not caught: the forecast client
    raises it as it is, after that one call. *)
Theorem get_api_forecasts_service_error actuals fcast_horizon group_target
    target_var date_var models_list log e :
  let req :=
    {| req_actuals := actuals; req_fcast_horizon := fcast_horizon;
       req_group_target := group_target; req_target_var := target_var;
       req_date_var := date_var; req_models_list := models_list |} in
  api log req = inl e →
  get_api_forecasts api dt actuals fcast_horizon group_target target_var
                    date_var models_list log
  = (inl e, log ++ [RemoteCall req]).
Proof.
  intros req Hdown.
  unfold get_api_forecasts, bind, call_th2forecast_api. fold req.
  by rewrite Hdown.
Qed.

(** X3. An answer without records does not become an empty table: the
    forecast client fails with [KeyError] on the [date] column. *)
Theorem get_api_forecasts_no_record actuals fcast_horizon group_target
    target_var date_var models_list log :
  let req :=
    {| req_actuals := actuals; req_fcast_horizon := fcast_horizon;
       req_group_target := group_target; req_target_var := target_var;
       req_date_var := date_var; req_models_list := models_list |} in
  api log req = inr [] →
  get_api_forecasts api dt actuals fcast_horizon group_target target_var
                    date_var models_list log
  = (inl (KeyError "date"), log ++ [RemoteCall req]).
Proof.
  intros req Hmute.
  unfold get_api_forecasts, bind, call_th2forecast_api. fold req.
  by rewrite Hmute.
Qed.

(** X4. For an answer with records whose dates can all be read, the
    forecast client returns one row for each record, in the order of the
    answer: the row has the date read from [.index], the [.model_id] of the
    record, and the [.value] of the record as its only float column, under
    the name of the target variable. *)
Theorem get_api_forecasts_rows actuals fcast_horizon group_target
    target_var date_var models_list log answer (dates : list timestamp) :
  let req :=
    {| req_actuals := actuals; req_fcast_horizon := fcast_horizon;
       req_group_target := group_target; req_target_var := target_var;
       req_date_var := date_var; req_models_list := models_list |} in
  api log req = inr answer →
  answer ≠ [] →
  Forall2 (λ record d, dt (raw_index record) = Some d) answer dates →
  get_api_forecasts api dt actuals fcast_horizon group_target target_var
                    date_var models_list log
  = (inr (zip_with (λ record d, row_of_record target_var d record)
                   answer dates),
     log ++ [RemoteCall req]).
Proof.
  intros req Hanswer Hrecords Hdates.
  unfold get_api_forecasts, bind, call_th2forecast_api. fold req.
  rewrite Hanswer. destruct answer as [|record answer]; [done|].
  by apply mapM_rows.
Qed.

(** X5. When a date of the answer cannot be read, the forecast client fails
    with [ValueError] on the first such date, and returns no row. *)
Theorem get_api_forecasts_bad_date actuals fcast_horizon group_target
    target_var date_var models_list log (good rest : list RawForecast) bad :
  let req :=
    {| req_actuals := actuals; req_fcast_horizon := fcast_horizon;
       req_group_target := group_target; req_target_var := target_var;
       req_date_var := date_var; req_models_list := models_list |} in
  api log req = inr (good ++ bad :: rest) →
  Forall (λ record, is_Some (dt (raw_index record))) good →
  dt (raw_index bad) = None →
  get_api_forecasts api dt actuals fcast_horizon group_target target_var
                    date_var models_list log
  = (inl (ValueError (raw_index bad)), log ++ [RemoteCall req]).
Proof.
  intros req Hanswer Hgood Hbad.
  unfold get_api_forecasts, bind, call_th2forecast_api. fold req.
  rewrite Hanswer.
  destruct (good ++ bad :: rest) as [|record answer] eqn:Heq;
    [by destruct good|].
  rewrite <-Heq. by apply mapM_rows_bad_date.
Qed.
End client.

(** X2, witness: the service is down. *)
Lemma get_api_forecasts_service_error_witness :
  get_api_forecasts stub_api_down stub_to_datetime (stub_history "pop" 3)
                    2 None "value" "date" ["xgboost"] []
  = (inl (ServiceError "503"),
     [RemoteCall (combiner_request (stub_history "pop" 3) 2 "value"
                                   ["xgboost"])]).
Proof.
  exact (get_api_forecasts_service_error stub_api_down stub_to_datetime
           (stub_history "pop" 3) 2 None "value" "date" ["xgboost"] []
           (ServiceError "503") eq_refl).
Defined.

(** X3, witness: the service answers without records. *)
Lemma get_api_forecasts_no_record_witness :
  get_api_forecasts stub_api_mute stub_to_datetime (stub_history "pop" 3)
                    2 None "value" "date" ["xgboost"] []
  = (inl (KeyError "date"),
     [RemoteCall (combiner_request (stub_history "pop" 3) 2 "value"
                                   ["xgboost"])]).
Proof.
  exact (get_api_forecasts_no_record stub_api_mute stub_to_datetime
           (stub_history "pop" 3) 2 None "value" "date" ["xgboost"] []
           eq_refl).
Defined.

(** X4, witness: three days of history, two days ahead, one model. *)
Lemma get_api_forecasts_rows_witness :
  get_api_forecasts stub_api stub_to_datetime (stub_history "pop" 3)
                    2 None "value" "date" ["xgboost"] []
  = (inr [ row_of_record "value" 4%Z
             {| raw_index := "4"; raw_value := f64_of_pos 1;
                raw_model_id := 1%Z |};
           row_of_record "value" 5%Z
             {| raw_index := "5"; raw_value := f64_of_pos 2;
                raw_model_id := 1%Z |} ],
     [RemoteCall (combiner_request (stub_history "pop" 3) 2 "value"
                                   ["xgboost"])]).
Proof.
  refine (get_api_forecasts_rows stub_api stub_to_datetime
            (stub_history "pop" 3) 2 None "value" "date" ["xgboost"] []
            _ [4; 5]%Z eq_refl _ _).
  - done.
  - repeat constructor.
Defined.

(** X5, witness: the only record is dated "soon". *)
Lemma get_api_forecasts_bad_date_witness :
  get_api_forecasts stub_api_undated stub_to_datetime (stub_history "pop" 3)
                    2 None "value" "date" ["xgboost"] []
  = (inl (ValueError "soon"),
     [RemoteCall (combiner_request (stub_history "pop" 3) 2 "value"
                                   ["xgboost"])]).
Proof.
  refine (get_api_forecasts_bad_date stub_api_undated stub_to_datetime
            (stub_history "pop" 3) 2 None "value" "date" ["xgboost"] []
            [] [] _ eq_refl _ eq_refl).
  constructor.
Defined.

(** ** The remote calls of the combiner and of the handler *)

Lemma bind_inl {A B} (m : M A) (k : A → M B) log e log' :
  m log = (inl e, log') → bind m k log = (inl e, log').
Proof. unfold bind. by intros ->. Qed.

Lemma silent_column name (df : list ForecastRow) : silent (column name df).
Proof. unfold column. silently. Qed.

Lemma silent_rescale min_value max_value (df : list ForecastRow) :
  silent (rescale min_value max_value df).
Proof. unfold rescale. pose proof silent_column. silently. Qed.

Lemma silent_iloc_neg {A} (k : nat) (s : list A) : silent (iloc_neg k s).
Proof. unfold iloc_neg. case_decide; silently. Qed.

Lemma silent_zoom_range_of (filtered_data : list Observation)
    (df : list ForecastRow) :
  silent (zoom_range_of filtered_data df).
Proof.
  unfold zoom_range_of.
  pose proof (silent_iloc_neg (A:=timestamp)). silently.
Qed.

Lemma silent_create_plot kind (filtered_data : list Observation)
    (forecasts : list (string * list ForecastRow)) title yaxis_title
    zoom_range :
  silent (create_plot kind filtered_data forecasts title yaxis_title
                      zoom_range).
Proof.
  unfold create_plot, model_traces. pose proof silent_column. silently.
Qed.

Section remote_calls.
Variable th2forecast_api :
  list event → ApiRequest → exn + list RawForecast.
Variable to_datetime : string → option timestamp.

Local Abbreviation api := th2forecast_api.
Local Abbreviation dt := to_datetime.

Implicit Types (data filtered_data backtest_data : list Observation).
Implicit Types (models selected_models : list string) (log : list event).

Lemma get_api_forecasts_log (actuals : list Observation) fcast_horizon
    target_var models log :
  (get_api_forecasts api dt actuals fcast_horizon None target_var "date"
                     models log).2
  = log ++ [RemoteCall (combiner_request actuals fcast_horizon target_var
                                         models)].
Proof.
  unfold get_api_forecasts. unfold bind at 1. unfold call_th2forecast_api.
  destruct (api log _) as [e|answer]; [done|].
  destruct answer as [|record answer]; [done|].
  apply (silent_mapM _ (record :: answer)). intros r. silently.
Qed.

(** X6. When the forecast of the backtest slice fails, the combiner fails
    with the same exception and never asks for the forecast of the full
    series: the one remote call it made is that of the backtest slice. *)
Theorem combine_backtest_forecast_stops
    filtered_data backtest_data fcast_horizon target_var models log e log1 :
  get_api_forecasts api dt backtest_data fcast_horizon None target_var
                    "date" models log = (inl e, log1) →
  combine_backtest_forecast api dt filtered_data backtest_data
                            fcast_horizon target_var models log
  = (inl e, log ++ [RemoteCall (combiner_request backtest_data fcast_horizon
                                                 target_var models)]).
Proof.
  intros Hbacktest.
  pose proof (get_api_forecasts_log backtest_data fcast_horizon target_var
                models log) as Hlog.
  rewrite Hbacktest in Hlog. simpl in Hlog. subst log1.
  unfold combine_backtest_forecast. by rewrite (bind_inl _ _ _ _ _ Hbacktest).
Qed.

(** X7. When the forecast of the backtest slice succeeds, the combiner makes
    two remote calls, whether the second succeeds or not: first for the
    backtest slice, then for the full series, both with the same horizon,
    target variable and models, the date column ["date"] and no group. *)
Theorem combine_backtest_forecast_two_calls
    filtered_data backtest_data fcast_horizon target_var models log
    (backtest_df : list ForecastRow) log1 :
  get_api_forecasts api dt backtest_data fcast_horizon None target_var
                    "date" models log = (inr backtest_df, log1) →
  (combine_backtest_forecast api dt filtered_data backtest_data
                             fcast_horizon target_var models log).2
  = log ++ [RemoteCall (combiner_request backtest_data fcast_horizon
                                         target_var models);
            RemoteCall (combiner_request filtered_data fcast_horizon
                                         target_var models)].
Proof.
  intros Hbacktest.
  pose proof (get_api_forecasts_log backtest_data fcast_horizon target_var
                models log) as Hlog.
  rewrite Hbacktest in Hlog. simpl in Hlog. subst log1.
  pose proof (get_api_forecasts_log filtered_data fcast_horizon target_var
                models (log ++ [RemoteCall (combiner_request backtest_data
                  fcast_horizon target_var models)])) as Hlog'.
  unfold combine_backtest_forecast. rewrite (bind_inr _ _ _ _ _ Hbacktest).
  unfold bind.
  destruct (get_api_forecasts api dt filtered_data _ _ _ _ _ _)
    as [[e|forecast_df] log2]; simpl in *; by rewrite Hlog', <-app_assoc.
Qed.

(** The log after a run of the combiner. *)
Lemma combine_backtest_forecast_log
    filtered_data backtest_data fcast_horizon target_var models log :
  let run := combine_backtest_forecast api dt filtered_data backtest_data
               fcast_horizon target_var models log in
  let backtest_call := RemoteCall (combiner_request backtest_data
                         fcast_horizon target_var models) in
  let forecast_call := RemoteCall (combiner_request filtered_data
                         fcast_horizon target_var models) in
  run.2 = log ++ [backtest_call; forecast_call] ∨
  (run.2 = log ++ [backtest_call] ∧ ∃ e, run.1 = inl e).
Proof.
  cbv zeta. rewrite combine_backtest_forecast_unfold.
  pose proof (get_api_forecasts_log backtest_data fcast_horizon target_var
                models log) as Hlog.
  destruct (get_api_forecasts api dt backtest_data _ _ _ _ _ log)
    as [[e|backtest_df] log1]; simpl in Hlog; subst log1.
  - right. eauto.
  - left.
    pose proof (get_api_forecasts_log filtered_data fcast_horizon target_var
                  models (log ++ [RemoteCall (combiner_request backtest_data
                    fcast_horizon target_var models)])) as Hlog.
    destruct (get_api_forecasts api dt filtered_data _ _ _ _ _ _)
      as [[e|forecast_df] log2]; simpl in *; by rewrite Hlog, <-app_assoc.
Qed.

(** What follows the two runs of the combiner makes no remote call. *)
Ltac quietly :=
  unfold create_line_plot, create_bar_chart;
  repeat (apply quiet_bind;
          [ first [ apply silent_quiet;
                    first [ apply silent_rescale
                          | apply silent_zoom_range_of
                          | apply silent_create_plot ]
                  | by apply quiet_emit ]
          | intros ? ]);
  by apply quiet_emit.

(** X8. Whatever happens, the handler makes at most four remote calls, and
    always in this order: backtest slice and full series for the original
    values, then backtest slice and full series for the normalized values.
    When the handler completes for a non-empty selection it has made all
    four. *)
Theorem generate_forecast_remote_calls
    data var fcast_horizon selected_models log :
  let filtered_data := filter (λ o, variable o = var) data in
  let backtest_data := iloc_upto_neg fcast_horizon filtered_data in
  let expected :=
    [ combiner_request backtest_data fcast_horizon "value" selected_models;
      combiner_request filtered_data fcast_horizon "value" selected_models;
      combiner_request backtest_data fcast_horizon "value01" selected_models;
      combiner_request filtered_data fcast_horizon "value01"
                       selected_models ] in
  let run := generate_forecast api dt data var fcast_horizon selected_models
               log in
  ∃ events,
    run.2 = log ++ events ∧
    remote_calls events `prefix_of` expected ∧
    (run.1 = inr tt → selected_models ≠ [] → remote_calls events = expected).
Proof.
  intros filtered_data backtest_data expected run.
  destruct selected_models as [|model models].
  { eexists. split; [reflexivity|]. split; [by eexists|done]. }
  subst run. unfold generate_forecast. cbv beta iota zeta.
  set (selected_models := model :: models) in *.
  fold filtered_data. fold backtest_data.
  pose proof (combine_backtest_forecast_log filtered_data backtest_data
                fcast_horizon "value" selected_models log) as Hlog1.
  cbv zeta in Hlog1.
  destruct (combine_backtest_forecast api dt filtered_data backtest_data
              fcast_horizon "value" selected_models log)
    as [[e|forecast_original_df] log1] eqn:Hrun1; simpl in Hlog1.
  { rewrite (bind_inl _ _ _ _ _ Hrun1). simpl.
    destruct Hlog1 as [->|[-> _]]; eexists; (split; [reflexivity|]);
      (split; [eexists; reflexivity | intros [=]]). }
  rewrite (bind_inr _ _ _ _ _ Hrun1).
  destruct Hlog1 as [->|[_ [e [=]]]].
  pose proof (combine_backtest_forecast_log filtered_data backtest_data
                fcast_horizon "value01" selected_models
                (log ++ [RemoteCall (combiner_request backtest_data
                           fcast_horizon "value" selected_models);
                         RemoteCall (combiner_request filtered_data
                           fcast_horizon "value" selected_models)]))
    as Hlog2.
  cbv zeta in Hlog2.
  destruct (combine_backtest_forecast api dt filtered_data backtest_data
              fcast_horizon "value01" selected_models _)
    as [[e|forecast_normalized_df] log2] eqn:Hrun2; simpl in Hlog2.
  { rewrite (bind_inl _ _ _ _ _ Hrun2). simpl.
    destruct Hlog2 as [->|[-> _]]; rewrite <-app_assoc; eexists;
      (split; [reflexivity|]);
      (split; [eexists; reflexivity | intros [=]]). }
  rewrite (bind_inr _ _ _ _ _ Hrun2).
  destruct Hlog2 as [->|[_ [e [=]]]].
  lazymatch goal with
  | |- ∃ events, (?m ?l).2 = _ ∧ _ =>
      assert (quiet m) as Hquiet by quietly;
      destruct (Hquiet l) as (events & Hevents & Hnone)
  end.
  eexists. split; [rewrite Hevents, <-!app_assoc; reflexivity|].
  rewrite !remote_calls_app, Hnone. simpl.
  split; [by exists []|done].
Qed.
End remote_calls.

(** ** How the handler fails *)

Section handler_failures.
Variable th2forecast_api :
  list event → ApiRequest → exn + list RawForecast.
Variable to_datetime : string → option timestamp.

Local Abbreviation api := th2forecast_api.
Local Abbreviation dt := to_datetime.

Implicit Types (data filtered_data backtest_data : list Observation).
Implicit Types (models selected_models : list string) (log : list event).
Implicit Types (df : list ForecastRow).

Lemma get_api_forecasts_nonempty (actuals : list Observation) fcast_horizon
    group_target target_var date_var models log df log' :
  get_api_forecasts api dt actuals fcast_horizon group_target target_var
                    date_var models log = (inr df, log') →
  df ≠ [].
Proof.
  unfold get_api_forecasts.
  intros (answer & log1 & _ & Hrows)%bind_inr_inv.
  destruct answer as [|record answer]; [done|].
  apply mapM_inr_inv, Forall2_length in Hrows. by destruct df.
Qed.

(** X9. The combiner never returns an empty table: when it succeeds, both
    the backtest part and the forecast part have rows, since the forecast
    client fails on an answer without records. *)
Theorem combine_backtest_forecast_nonempty
    filtered_data backtest_data fcast_horizon target_var models log df log' :
  combine_backtest_forecast api dt filtered_data backtest_data fcast_horizon
                            target_var models log = (inr df, log') →
  ∃ backtest_df forecast_df,
    df = backtest_df ++ forecast_df ∧ backtest_df ≠ [] ∧ forecast_df ≠ [] ∧
    2 ≤ length df.
Proof.
  unfold combine_backtest_forecast.
  intros (backtest_df & log1 & Hbacktest%get_api_forecasts_nonempty &
          (forecast_df & log2 & Hforecast%get_api_forecasts_nonempty &
           [= <- _])%bind_inr_inv)%bind_inr_inv.
  exists backtest_df, forecast_df. split_and!; [done..|].
  rewrite length_app. destruct backtest_df, forecast_df; simpl; try done; lia.
Qed.

Lemma zoom_range_of_short filtered_data df log :
  length filtered_data < 20 →
  zoom_range_of filtered_data df log = (inl IndexError, log).
Proof.
  intros Hshort. unfold zoom_range_of. apply bind_inl. unfold iloc_neg.
  rewrite decide_False; [done|]. rewrite length_fmap. lia.
Qed.

(** X10. For a variable with fewer than 20 observations the handler fails
    with [IndexError] on the start of the zoom range: this is after both
    runs of the combiner (all four remote calls are made), and no chart is
    shown. *)
Theorem generate_forecast_short_history data var fcast_horizon
    selected_models log (forecast_original_df : list ForecastRow) log1
    (forecast_normalized_df : list ForecastRow) log2 :
  let filtered_data := filter (λ o, variable o = var) data in
  let backtest_data := iloc_upto_neg fcast_horizon filtered_data in
  selected_models ≠ [] →
  combine_backtest_forecast api dt filtered_data backtest_data fcast_horizon
    "value" selected_models log = (inr forecast_original_df, log1) →
  combine_backtest_forecast api dt filtered_data backtest_data fcast_horizon
    "value01" selected_models log1 = (inr forecast_normalized_df, log2) →
  length filtered_data < 20 →
  generate_forecast api dt data var fcast_horizon selected_models log
  = (inl IndexError, log2).
Proof.
  intros filtered_data backtest_data Hmodels Horiginal Hnormalized Hshort.
  pose proof (combine_backtest_forecast_column _ _ _ _ _ _ _ _ _ _
                Hnormalized) as Hvalue01.
  destruct (rescale_inr (series_min (value <$> filtered_data))
              (series_max (value <$> filtered_data))
              forecast_normalized_df log2 Hvalue01)
    as (rescaled & Hrescale & _).
  destruct selected_models as [|model models]; [done|].
  unfold generate_forecast. cbv beta iota zeta.
  fold filtered_data. fold backtest_data.
  rewrite (bind_inr _ _ _ _ _ Horiginal), (bind_inr _ _ _ _ _ Hnormalized).
  rewrite (bind_inr _ _ _ _ _ Hrescale).
  by rewrite (bind_inl _ _ _ _ _
                (zoom_range_of_short filtered_data forecast_original_df log2
                   Hshort)).
Qed.

(** X11. When the first remote call raises an exception, the handler fails
    with this exception: it makes no other remote call and shows
    nothing. *)
Theorem generate_forecast_service_error data var fcast_horizon
    selected_models log e :
  let filtered_data := filter (λ o, variable o = var) data in
  let backtest_data := iloc_upto_neg fcast_horizon filtered_data in
  let req := combiner_request backtest_data fcast_horizon "value"
                              selected_models in
  selected_models ≠ [] →
  api log req = inl e →
  generate_forecast api dt data var fcast_horizon selected_models log
  = (inl e, log ++ [RemoteCall req]).
Proof.
  intros filtered_data backtest_data req Hmodels Hdown.
  destruct selected_models as [|model models]; [done|].
  unfold generate_forecast. cbv beta iota zeta.
  fold filtered_data. fold backtest_data.
  apply bind_inl. unfold combine_backtest_forecast. apply bind_inl.
  unfold get_api_forecasts. apply bind_inl.
  unfold call_th2forecast_api. unfold req, combiner_request in *.
  by rewrite Hdown.
Qed.
End handler_failures.

(** X9, witness: five days of history, a horizon of two days, one model. *)
Lemma combine_backtest_forecast_nonempty_witness :
  ∃ df log',
    combine_backtest_forecast stub_api stub_to_datetime
      (stub_history "pop" 5) (iloc_upto_neg 2 (stub_history "pop" 5)) 2
      "value" ["xgboost"] [] = (inr df, log') ∧
    2 ≤ length df.
Proof.
  eexists _, _. split; [vm_compute; reflexivity|].
  edestruct (combine_backtest_forecast_nonempty stub_api stub_to_datetime
               (stub_history "pop" 5)
               (iloc_upto_neg 2 (stub_history "pop" 5)) 2 "value"
               ["xgboost"] []) as (_ & _ & _ & _ & _ & Hlen).
  - vm_compute. reflexivity.
  - exact Hlen.
Defined.

(** X10, witness: five days of history. *)
Lemma generate_forecast_short_history_witness :
  length (filter (λ o, variable o = "pop") (stub_history "pop" 5)) < 20 ∧
  (generate_forecast stub_api stub_to_datetime (stub_history "pop" 5) "pop"
                     2 ["xgboost"] []).1
  = inl IndexError.
Proof.
  assert (length (filter (λ o, variable o = "pop") (stub_history "pop" 5))
          < 20) as Hshort by (vm_compute; lia).
  split; [exact Hshort|].
  erewrite (generate_forecast_short_history stub_api stub_to_datetime
              (stub_history "pop" 5) "pop" 2 ["xgboost"] []);
    [reflexivity | done | vm_compute; reflexivity | vm_compute; reflexivity
    | exact Hshort].
Defined.

(** X11, witness: the service is down. *)
Lemma generate_forecast_service_error_witness :
  generate_forecast stub_api_down stub_to_datetime (stub_history "pop" 25)
                    "pop" 2 ["xgboost"] []
  = (inl (ServiceError "503"),
     [RemoteCall (combiner_request
                    (iloc_upto_neg 2 (filter (λ o, variable o = "pop")
                                             (stub_history "pop" 25)))
                    2 "value" ["xgboost"])]).
Proof.
  refine (generate_forecast_service_error stub_api_down stub_to_datetime
            (stub_history "pop" 25) "pop" 2 ["xgboost"] []
            (ServiceError "503") _ eq_refl).
  done.
Defined.

(** ** The splitter on the combined table *)

Section split_combined.
Import PyDict PyDictFacts.
Implicit Types (selected_models : list string) (name : string) (id : Z).
Implicit Types (model_dict : list (Z * string)).
Implicit Types (backtest_df forecast_df : list ForecastRow).

(** The keys of a comprehension do not depend on the values. *)
Lemma keys_comprehension_values {K V V' A} `{EqDecision K}
    (key : A → K) (val : A → V) (val' : A → V') (xs : list A) :
  keys (comprehension key val xs) = keys (comprehension key val' xs).
Proof.
  induction xs as [|x xs IH] using rev_ind; [done|].
  by rewrite !comprehension_snoc, !keys_set, IH.
Qed.

(** X12. Splitting a concatenation is splitting its parts: the result for
    [backtest_df ++ forecast_df] has the keys of the result for
    [backtest_df], in the same order, and each key holds its rows of
    [backtest_df] followed by its rows of [forecast_df]. *)
Theorem split_forecasts_by_model_app backtest_df forecast_df model_dict :
  keys (split_forecasts_by_model (backtest_df ++ forecast_df) model_dict)
  = keys (split_forecasts_by_model backtest_df model_dict) ∧
  ∀ name,
    get name (split_forecasts_by_model (backtest_df ++ forecast_df)
                                       model_dict)
    = match get name (split_forecasts_by_model backtest_df model_dict),
            get name (split_forecasts_by_model forecast_df model_dict) with
      | Some backtest_rows, Some forecast_rows =>
          Some (backtest_rows ++ forecast_rows)
      | _, _ => None
      end.
Proof.
  split; [apply keys_comprehension_values|].
  intros name. rewrite !get_split_forecasts_by_model.
  destruct (identifier_of name model_dict) as [id|]; [|done].
  simpl. by rewrite filter_app.
Qed.

(** X13. For distinct model names, the keys of the result of the split are
    the selected model names, in the order of the selection. *)
Theorem split_forecasts_by_model_keys selected_models
    (df : list ForecastRow) :
  NoDup selected_models →
  keys (split_forecasts_by_model df (generate_model_dict selected_models))
  = selected_models.
Proof.
  intros Hnd. rewrite split_forecasts_by_model_NoDup
    by by rewrite generate_model_dict_values.
  unfold keys. rewrite <-list_fmap_compose.
  by rewrite <-(generate_model_dict_values selected_models) at 2.
Qed.

(** X14. With distinct model names and a forecast client that returns
    exactly H rows for each model in both of its answers, the split of the
    combined table holds exactly 2 * H rows under every selected model. *)
Theorem split_combined_row_count selected_models fcast_horizon
    backtest_df forecast_df :
  NoDup selected_models →
  rows_per_model fcast_horizon (length selected_models) backtest_df →
  rows_per_model fcast_horizon (length selected_models) forecast_df →
  ∀ name, name ∈ selected_models →
    ∃ rows,
      get name (split_forecasts_by_model (backtest_df ++ forecast_df)
                  (generate_model_dict selected_models)) = Some rows ∧
      length rows = 2 * fcast_horizon.
Proof.
  intros Hnd [_ Hbacktest] [_ Hforecast] name Hname.
  rewrite Forall_forall in Hbacktest, Hforecast.
  apply list_elem_of_lookup in Hname as [i Hi].
  assert ((Z.of_nat i + 1)%Z ∈ seqZ 1 (Z.of_nat (length selected_models)))
    as Hid.
  { apply elem_of_seqZ. apply lookup_lt_Some in Hi. lia. }
  eexists. split.
  - rewrite get_split_forecasts_by_model.
    rewrite (identifier_of_unique _ name (Z.of_nat i + 1)%Z); [done| |].
    + by rewrite generate_model_dict_values.
    + apply elem_of_generate_model_dict. eauto.
  - rewrite filter_app, length_app, Hbacktest, Hforecast by done. lia.
Qed.
End split_combined.

(** X13, witness: two models. *)
Lemma split_forecasts_by_model_keys_witness :
  NoDup ["xgboost"; "arima"] ∧
  PyDict.keys (split_forecasts_by_model [stub_row 4 2; stub_row 4 1]
                 (generate_model_dict ["xgboost"; "arima"]))
  = ["xgboost"; "arima"].
Proof.
  assert (NoDup ["xgboost"; "arima"]) as Hnd by compute_done.
  split; [exact Hnd|].
  exact (split_forecasts_by_model_keys ["xgboost"; "arima"]
           [stub_row 4 2; stub_row 4 1] Hnd).
Defined.

(** X14, witness: two models and a horizon of one day. *)
Lemma split_combined_row_count_witness :
  ∃ rows,
    PyDict.get "arima"
      (split_forecasts_by_model
         ([stub_row 4 1; stub_row 4 2] ++ [stub_row 6 1; stub_row 6 2])
         (generate_model_dict ["xgboost"; "arima"])) = Some rows ∧
    length rows = 2.
Proof.
  apply (split_combined_row_count ["xgboost"; "arima"] 1
           [stub_row 4 1; stub_row 4 2] [stub_row 6 1; stub_row 6 2]).
  - compute_done.
  - unfold rows_per_model. compute_done.
  - unfold rows_per_model. compute_done.
  - compute_done.
Defined.

(** ** The rescaling of a forecast of zero *)

(** X15. A normalized forecast of zero is rescaled to the minimum, when the
    minimum is a number and the difference of the maximum and the minimum
    is a number too (it is not when it overflows). *)
Theorem rescale_value_zero (min_value max_value : float64) (s : bool) :
  f64_is_finite min_value = true →
  f64_is_finite (f64_sub max_value min_value) = true →
  f64_eqb (rescale_value min_value max_value (S754_zero s)) min_value = true.
Proof.
  intros Hmin Hrange. unfold rescale_value.
  destruct (f64_sub max_value min_value) as [s'| | |s' m e]; try done.
  - by apply f64_add_zero.
  - by apply f64_add_zero.
Qed.

(** X15, witness: the minimum is 1.0 and the maximum 2.0. *)
Lemma rescale_value_zero_witness :
  f64_eqb (rescale_value (f64_of_pos 1) (f64_of_pos 2) (S754_zero false))
          (f64_of_pos 1) = true.
Proof.
  exact (rescale_value_zero (f64_of_pos 1) (f64_of_pos 2) false
           eq_refl eq_refl).
Defined.

(** ** The backtest slice *)

(** X16. For a horizon of at least one and at most the number of rows,
    [iloc[:-horizon]] is the table without its last [horizon] rows: the
    slice followed by these rows is the table. *)
Theorem iloc_upto_neg_prefix {A} (k : nat) (df : list A) :
  0 < k ≤ length df →
  iloc_upto_neg k df ++ drop (length df - k) df = df ∧
  length (iloc_upto_neg k df) = length df - k ∧
  length (drop (length df - k) df) = k.
Proof.
  intros Hk. destruct k as [|k]; [lia|]. unfold iloc_upto_neg.
  rewrite take_drop, length_take, length_drop. split_and!; [done|lia..].
Qed.

(** X16, witness: the end-to-end scenario of 100 observations and a
    horizon of 12. *)
Lemma iloc_upto_neg_prefix_witness :
  0 < 12 ≤ length (stub_history "pop" 100) ∧
  length (iloc_upto_neg 12 (stub_history "pop" 100)) = 88.
Proof.
  assert (0 < 12 ≤ length (stub_history "pop" 100)) as Hk
    by (vm_compute; lia).
  split; [exact Hk|].
  destruct (iloc_upto_neg_prefix 12 (stub_history "pop" 100) Hk)
    as (_ & -> & _).
  reflexivity.
Defined.

(** ** The variable selector *)

Lemma split_head_cons (sep : string) (c : ascii) (s : string) :
  split_head sep (String c s)
  = if String.prefix sep (String c s) then ""
    else String c (split_head sep s).
Proof. done. Qed.

Lemma prefix_cons_ne (a c : ascii) (sep s : string) :
  a ≠ c → String.prefix (String a sep) (String c s) = false.
Proof. intros Hne. cbn [String.prefix]. by destruct (ascii_dec a c). Qed.

Lemma split_head_app (key rest : string) :
  has_char " "%char key = false →
  split_head " - " (key +:+ " - " +:+ rest) = key.
Proof.
  induction key as [|c key IH]; [intros _; simpl; by destruct rest|].
  cbn [has_char]. destruct (decide (" "%char = c)) as [|Hc]; [done|].
  intros Hkey.
  change (String c key +:+ " - " +:+ rest)
    with (String c (key +:+ " - " +:+ rest)).
  rewrite split_head_cons, prefix_cons_ne by done. f_equal. by apply IH.
Qed.

(** X17. The variable is read back from the option of the dropdown: for
    descriptions whose keys have no space, the text before the first
    [" - "] of each option is the key it was made of, so that the options
    give back the keys, in order. *)
Theorem variable_of_option_key (descriptions : list (string * string)) :
  Forall (λ item, has_char " "%char item.1 = false) descriptions →
  variable_of_option <$> dropdown_options descriptions
  = PyDict.keys descriptions.
Proof.
  unfold dropdown_options, PyDict.keys. rewrite <-list_fmap_compose.
  induction 1 as [|[key description] descriptions Hkey _ IH]; [done|].
  rewrite !fmap_cons, IH. f_equal. by apply split_head_app.
Qed.

(** X17, witness: the five variables of the application. *)
Lemma variable_of_option_key_witness :
  variable_of_option <$> dropdown_options variable_descriptions
  = ["pce"; "pop"; "psavert"; "uempmed"; "unemploy"].
Proof.
  refine (variable_of_option_key variable_descriptions _).
  by repeat constructor.
Defined.

(** ** The figures *)

Section figures.
Import PyDict.
Implicit Types (filtered_data : list Observation) (log : list event).
Implicit Types (forecasts : list (string * list ForecastRow)).

Lemma mapM_silent_Forall2 {A B} (f : A → M B) (R : A → B → Prop)
    (l : list A) log :
  Forall (λ a, ∃ b, f a log = (inr b, log) ∧ R a b) l →
  ∃ bs, mapM f l log = (inr bs, log) ∧ Forall2 R l bs.
Proof.
  induction 1 as [|a l (b & Hb & HR) _ (bs & Hbs & Hall)]; cbn [mapM].
  - by exists [].
  - exists (b :: bs).
    rewrite (bind_inr _ _ _ _ _ Hb), (bind_inr _ _ _ _ _ Hbs).
    split; [done|]. by constructor.
Qed.

(** X18. From forecasts whose rows all have a [value], [create_line_plot]
    ([Scatter]) and [create_bar_chart] ([Bar]) build a figure without any
    other effect: its first trace is "Actuals", with the dates and the
    values of the history, and the others are one per key of the forecasts,
    in the order of the dictionary, named after the key, with the dates and
    the values of the rows under the key, in order. Title, axis titles and
    range are the ones given. *)
Theorem create_plot_traces kind filtered_data forecasts title yaxis_title
    zoom_range log :
  Forall (λ item, Forall (λ r, is_Some (get "value" (fcols r))) item.2)
         forecasts →
  ∃ fig traces,
    create_plot kind filtered_data forecasts title yaxis_title zoom_range log
    = (inr fig, log) ∧
    fig_traces fig
    = {| tr_kind := kind; tr_name := "Actuals";
         tr_x := date <$> filtered_data;
         tr_y := value <$> filtered_data |} :: traces ∧
    Forall2 (λ item trace,
               tr_kind trace = kind ∧
               tr_name trace = item.1 ∧
               tr_x trace = fdate <$> item.2 ∧
               Forall2 (λ r y, get "value" (fcols r) = Some y)
                       item.2 (tr_y trace))
            forecasts traces ∧
    fig_title fig = title ∧
    fig_xaxis_title fig = "Date" ∧
    fig_yaxis_title fig = yaxis_title ∧
    fig_xaxis_range fig = zoom_range.
Proof.
  intros Hvalue. unfold create_plot, model_traces.
  edestruct (mapM_silent_Forall2
               (λ item : string * list ForecastRow,
                  let! y := column "value" item.2 in
                  ret {| tr_kind := kind; tr_name := item.1;
                         tr_x := fdate <$> item.2; tr_y := y |})
               (λ item trace,
                  tr_kind trace = kind ∧ tr_name trace = item.1 ∧
                  tr_x trace = fdate <$> item.2 ∧
                  Forall2 (λ r y, get "value" (fcols r) = Some y)
                          item.2 (tr_y trace))
               forecasts log) as (traces & Hrun & Htraces).
  { eapply Forall_impl; [exact Hvalue|]. intros [name rows] Hrows.
    destruct (column_Forall2 "value" rows log Hrows) as (y & Hy & Hall).
    eexists. by rewrite (bind_inr _ _ _ _ _ Hy). }
  eexists _, traces. by rewrite (bind_inr _ _ _ _ _ Hrun).
Qed.
End figures.

(** X18, witness: a line plot of two days of history and one forecast row
    of one model. *)
Lemma create_plot_traces_witness :
  ∃ fig,
    create_line_plot (stub_history "pop" 2)
      [("xgboost", [row_of_record "value" 3%Z
                      {| raw_index := "3"; raw_value := f64_half;
                         raw_model_id := 1%Z |}])]
      "Original Values" "Value" (1, 3)%Z []
    = (inr fig, []) ∧
    tr_name <$> fig_traces fig = ["Actuals"; "xgboost"] ∧
    tr_y <$> fig_traces fig
    = [[f64_of_pos 1; f64_of_pos 2]; [f64_half]].
Proof.
  edestruct (create_plot_traces Scatter (stub_history "pop" 2)
               [("xgboost", [row_of_record "value" 3%Z
                               {| raw_index := "3"; raw_value := f64_half;
                                  raw_model_id := 1%Z |}])]
               "Original Values" "Value" (1, 3)%Z [])
    as (fig & traces & Hrun & _).
  - repeat constructor. by eexists.
  - exists fig. split; [exact Hrun|].
    vm_compute in Hrun. injection Hrun as <-. split; reflexivity.
Defined.

(** X6, witness: the service is down. *)
Lemma combine_backtest_forecast_stops_witness :
  combine_backtest_forecast stub_api_down stub_to_datetime
    (stub_history "pop" 5) (iloc_upto_neg 2 (stub_history "pop" 5)) 2
    "value" ["xgboost"] []
  = (inl (ServiceError "503"),
     [RemoteCall (combiner_request (iloc_upto_neg 2 (stub_history "pop" 5))
                                   2 "value" ["xgboost"])]).
Proof.
  refine (combine_backtest_forecast_stops stub_api_down stub_to_datetime
            (stub_history "pop" 5) (iloc_upto_neg 2 (stub_history "pop" 5))
            2 "value" ["xgboost"] [] (ServiceError "503") _ _).
  vm_compute. reflexivity.
Defined.

(** X7, witness: five days of history, a horizon of two days, one model. *)
Lemma combine_backtest_forecast_two_calls_witness :
  remote_calls
    (combine_backtest_forecast stub_api stub_to_datetime
       (stub_history "pop" 5) (iloc_upto_neg 2 (stub_history "pop" 5)) 2
       "value" ["xgboost"] []).2
  = [ combiner_request (iloc_upto_neg 2 (stub_history "pop" 5)) 2 "value"
                       ["xgboost"];
      combiner_request (stub_history "pop" 5) 2 "value" ["xgboost"] ].
Proof.
  erewrite (combine_backtest_forecast_two_calls stub_api stub_to_datetime
              (stub_history "pop" 5)
              (iloc_upto_neg 2 (stub_history "pop" 5)) 2 "value"
              ["xgboost"] []);
    [reflexivity | vm_compute; reflexivity].
Defined.
